(** * AtomicWallet: the ledger core of [main.py]

    A shallow embedding of the wallet service: the two tables ([wallets],
    [transactions]), the request schema [TransferRequest] with its
    [amount_cents] property, the SQLAlchemy session as a unit of work with
    row locks, and the three endpoints [create_wallet], [get_balance] and
    [transfer_funds].  The theorems at the end of the file are the
    properties of the specification, stated on these definitions. *)

From Stdlib Require Import ZArith QArith Qround Lia Bool.
From Stdlib Require Import Floats.SpecFloat.
From stdpp Require Import base decidable option list strings relations sorting.

Local Open Scope Z_scope.

(** ** Exceptions and outcomes *)

Inductive Exception :=
| HTTPException (status_code : Z) (detail : string)
| RequestValidationError
| OverflowError
| ValueError
| AttributeError
| DataError.

Inductive Outcome (A : Type) :=
| Return (a : A)
| Raise (e : Exception).
Arguments Return {A} a.
Arguments Raise {A} e.

(** ** Python floats

    A Python [float] is an IEEE 754 binary64 value: [spec_float] with a
    53-bit mantissa and the exponent of the infinities at 1024. *)

Module PyFloat.

Definition prec : Z := 53.
Definition emax : Z := 1024.

Definition mul : spec_float -> spec_float -> spec_float := SFmul prec emax.
Definition div : spec_float -> spec_float -> spec_float := SFdiv prec emax.
Definition ltb : spec_float -> spec_float -> bool := SFltb.

(** [float(n)] for a Python integer, rounded to nearest-even. *)
Definition of_int (n : Z) : spec_float := binary_normalize prec emax n 0 false.

(** The conversion of an integer operand in mixed arithmetic, as in
    [balance_cents / 100.0]: Python refuses an integer beyond the range
    of a float. *)
Definition float (n : Z) : Outcome spec_float :=
  match of_int n with
  | S754_infinity _ => Raise OverflowError
  | x => Return x
  end.

(** The literals [0], [100] and [100.0] of the source. *)
Definition zero : spec_float := S754_zero false.
Definition hundred : spec_float := of_int 100.

(** The float nearest to the decimal [n / d]: how a JSON number such as
    [0.29] is read. *)
Definition decimal (n d : Z) : spec_float := div (of_int n) (of_int d).

(** Python's [int(x)]: the integer part of [x], the fraction dropped. *)
Definition int (x : spec_float) : Outcome Z :=
  match x with
  | S754_zero _ => Return 0
  | S754_infinity _ => Raise OverflowError
  | S754_nan => Raise ValueError
  | S754_finite s m e =>
      let magnitude :=
        if 0 <=? e then Z.shiftl (Zpos m) e else Z.shiftr (Zpos m) (- e) in
      Return (if s then - magnitude else magnitude)
  end.

(** The exact rational value of a float (0 for infinities and NaN). *)
Definition to_Q (x : spec_float) : Q :=
  match x with
  | S754_finite s m e =>
      let q := if 0 <=? e then inject_Z (Zpos m * 2 ^ e)
               else Qmake (Zpos m) (Z.to_pos (2 ^ (- e))) in
      if s then Qopp q else q
  | _ => 0%Q
  end.

End PyFloat.

(** ** Database models *)

Module Wallet.
Record t := mk { id : Z; user_name : string; balance_cents : Z }.
End Wallet.

Module Transaction.
Record t := mk {
  id : Z;
  sender_id : Z;
  receiver_id : Z;
  amount_cents : Z;
  timestamp : Z
}.
End Transaction.

(** The two tables, rows in insertion order, and the sequences behind the
    two integer primary keys. *)
Record Database := mkDatabase {
  wallets : list Wallet.t;
  transactions : list Transaction.t;
  wallets_id_seq : Z;
  transactions_id_seq : Z
}.

(** ** Pydantic schemas *)

Module TransferRequest.

Record t := mk {
  sender_username : string;
  receiver_username : string;
  amount_dollars : spec_float
}.

(** [amount_dollars: float = Field(..., gt=0)] *)
Definition validate (sender receiver : string) (amount : spec_float) : option t :=
  if PyFloat.ltb PyFloat.zero amount then Some (mk sender receiver amount) else None.

(** [int(self.amount_dollars * 100)] *)
Definition amount_cents (self : t) : Outcome Z :=
  PyFloat.int (PyFloat.mul (amount_dollars self) PyFloat.hundred).

End TransferRequest.

Module WalletCreate.
Record t := mk { username : string }.
End WalletCreate.

(** ** The session: a unit of work over the database

    [bind] is what the database holds durably; [view] is the database as
    this transaction sees it, with the changes it has not committed yet;
    [locked] lists the wallet rows this transaction holds [FOR UPDATE],
    in the order it acquired them.  A loaded [Wallet] object is referred
    to by its row: the session's identity map hands out one object per
    row, so two queries that find the same row give the same object. *)

Record Session := mkSession {
  bind : Database;
  view : Database;
  locked : list nat
}.

Definition SessionLocal (db : Database) : Session :=
  {| bind := db; view := db; locked := [] |}.

Definition M (A : Type) : Type := Session -> Outcome A * Session.

Definition ret {A} (a : A) : M A := fun s => (Return a, s).

Definition raise {A} (e : Exception) : M A := fun s => (Raise e, s).

Definition bind_M {A B} (m : M A) (k : A -> M B) : M B :=
  fun s =>
    match m s with
    | (Return a, s') => k a s'
    | (Raise e, s') => (Raise e, s')
    end.

Notation "x <- m ;; k" := (bind_M m (fun x => k))
  (at level 100, m at next level, right associativity).
Notation "m ;;; k" := (bind_M m (fun _ => k))
  (at level 100, right associativity).

(** [try: body except Exception as e: handler e] *)
Definition try_except {A} (body : M A) (handler : Exception -> M A) : M A :=
  fun s =>
    match body s with
    | (Return a, s') => (Return a, s')
    | (Raise e, s') => handler e s'
    end.

(** A pure computation that may raise. *)
Definition eval {A} (o : Outcome A) : M A := fun s => (o, s).

(** The position of the first row of a table that satisfies [p]. *)
Fixpoint first_row {A} (p : A -> bool) (rows : list A) : option nat :=
  match rows with
  | [] => None
  | row :: rows' => if p row then Some 0%nat else S <$> first_row p rows'
  end.

Definition has_user_name (name : string) (w : Wallet.t) : bool :=
  bool_decide (Wallet.user_name w = name).

(** The database driver refuses a query parameter that holds a NUL
    character: binding it raises [ValueError] and no row is fetched.  A
    text column holds no such string, so in a table the database can have
    no row answers to a refused name; the queries below raise where the
    name holds a NUL and no row has it. *)
Fixpoint has_nul (s : string) : bool :=
  match s with
  | EmptyString => false
  | String c s' => Ascii.eqb c Ascii.zero || has_nul s'
  end.

(** [db.query(Wallet).filter(Wallet.user_name == name).first()] *)
Definition query_wallet (name : string) : M (option nat) :=
  fun s =>
    match first_row (has_user_name name) (wallets (view s)) with
    | Some row => (Return (Some row), s)
    | None => if has_nul name then (Raise ValueError, s) else (Return None, s)
    end.

Definition lock_row (row : nat) (s : Session) : Session :=
  if bool_decide (row ∈ locked s) then s
  else {| bind := bind s; view := view s; locked := locked s ++ [row] |}.

(** [db.query(Wallet).filter(Wallet.user_name == name).with_for_update().first()] *)
Definition query_wallet_for_update (name : string) : M (option nat) :=
  fun s =>
    match first_row (has_user_name name) (wallets (view s)) with
    | Some row => (Return (Some row), lock_row row s)
    | None => if has_nul name then (Raise ValueError, s) else (Return None, s)
    end.

(** Reading an attribute of a loaded wallet. *)
Definition getattr {A} (row : nat) (field : Wallet.t -> A) : M A :=
  fun s =>
    match wallets (view s) !! row with
    | Some w => (Return (field w), s)
    | None => (Raise AttributeError, s)
    end.

Definition with_wallets (ws : list Wallet.t) (db : Database) : Database :=
  {| wallets := ws; transactions := transactions db;
     wallets_id_seq := wallets_id_seq db;
     transactions_id_seq := transactions_id_seq db |}.

Definition with_view (db : Database) (s : Session) : Session :=
  {| bind := bind s; view := db; locked := locked s |}.

(** [wallet.balance_cents = value] *)
Definition set_balance_cents (row : nat) (value : Z) : M unit :=
  fun s =>
    match wallets (view s) !! row with
    | Some w =>
        let w' := Wallet.mk (Wallet.id w) (Wallet.user_name w) value in
        (Return tt, with_view (with_wallets (<[row := w']> (wallets (view s))) (view s)) s)
    | None => (Raise AttributeError, s)
    end.

(** [db.add(Wallet(user_name=..., balance_cents=...))]: the primary key
    comes from the table's sequence. *)
Definition add_wallet (user_name : string) (balance_cents : Z) : M unit :=
  fun s =>
    let db := view s in
    let key := wallets_id_seq db + 1 in
    (Return tt,
     with_view {| wallets := wallets db ++ [Wallet.mk key user_name balance_cents];
                  transactions := transactions db;
                  wallets_id_seq := key;
                  transactions_id_seq := transactions_id_seq db |} s).

(** [db.add(Transaction(sender_id=..., receiver_id=..., amount_cents=...))]:
    the primary key comes from the table's sequence and the timestamp
    from the column default, [datetime.utcnow].  The result is the new
    row's position in the ledger. *)
Definition add_transaction (utcnow sender_id receiver_id amount_cents : Z) : M nat :=
  fun s =>
    let db := view s in
    let key := transactions_id_seq db + 1 in
    (Return (length (transactions db)),
     with_view {| wallets := wallets db;
                  transactions := transactions db ++
                    [Transaction.mk key sender_id receiver_id amount_cents utcnow];
                  wallets_id_seq := wallets_id_seq db;
                  transactions_id_seq := key |} s).

(** The range of an [Integer] column, 32 bits in PostgreSQL. *)
Definition in_range (z : Z) : bool :=
  (-2147483648 <=? z) && (z <=? 2147483647).

(** The flush writes the balance of a wallet only where this transaction
    changed it.  A balance the database holds is within the range of the
    column; the write is accepted when the new balance is too. *)
Definition row_fits (old new : Wallet.t) : bool :=
  (Wallet.balance_cents old =? Wallet.balance_cents new) ||
  (in_range (Wallet.balance_cents old) && in_range (Wallet.balance_cents new)).

(** The rows of the transaction's view against the rows the database
    holds: the changed ones and, past the end, the new ones. *)
Fixpoint fits (olds news : list Wallet.t) : bool :=
  match news with
  | [] => true
  | new :: news' =>
      match olds with
      | [] => in_range (Wallet.balance_cents new) && fits [] news'
      | old :: olds' => row_fits old new && fits olds' news'
      end
  end.

(** [db.commit()]: the transaction's view becomes durable and its locks
    are released; when a balance it wrote is outside the range of the
    column the database refuses the write with a [DataError], and nothing
    is committed. *)
Definition commit : M unit :=
  fun s =>
    if fits (wallets (bind s)) (wallets (view s))
    then (Return tt, {| bind := view s; view := view s; locked := [] |})
    else (Raise DataError, s).

(** [db.rollback()]: the uncommitted changes are dropped and the locks
    released. *)
Definition rollback : M unit :=
  fun s => (Return tt, {| bind := bind s; view := bind s; locked := [] |}).

(** [db.refresh(txn_record)] followed by [txn_record.id]. *)
Definition refresh_id (row : nat) : M Z :=
  fun s =>
    match transactions (view s) !! row with
    | Some t => (Return (Transaction.id t), s)
    | None => (Raise AttributeError, s)
    end.

(** [Depends(get_db)]: a fresh session per request, closed when the
    endpoint is done; closing drops whatever was not committed. *)
Definition get_db {A} (endpoint : M A) (db : Database) : Outcome A * Database :=
  let '(result, s) := endpoint (SessionLocal db) in (result, bind s).

(** ** Endpoints *)

Definition bonus_cents : Z := 10000.

(** [POST /create_wallet] *)
Definition create_wallet (data : WalletCreate.t) : M string :=
  existing_user <- query_wallet (WalletCreate.username data) ;;
  match existing_user with
  | Some _ => ret "User already exists"%string
  | None =>
      add_wallet (WalletCreate.username data) bonus_cents ;;;
      commit ;;;
      ret ("Wallet created for " +:+ WalletCreate.username data +:+ " with $100.00")%string
  end.

(** [GET /balance/{username}]: the balance in dollars. *)
Definition get_balance (username : string) : M spec_float :=
  wallet <- query_wallet username ;;
  match wallet with
  | None => raise (HTTPException 404 "User not found")
  | Some wallet =>
      balance_cents <- getattr wallet Wallet.balance_cents ;;
      balance <- eval (PyFloat.float balance_cents) ;;
      ret (PyFloat.div balance PyFloat.hundred)
  end.

(** The body of the success response of a transfer; the message text is
    left out. *)
Record TransferResponse := mkTransferResponse {
  status : string;
  tx_id : Z
}.

(** Lines 105-106: both rows are fetched [FOR UPDATE], the sender's
    first. *)
Definition fetch_for_update (req : TransferRequest.t) : M (option nat * option nat) :=
  sender <- query_wallet_for_update (TransferRequest.sender_username req) ;;
  receiver <- query_wallet_for_update (TransferRequest.receiver_username req) ;;
  ret (sender, receiver).

(** [POST /transfer] *)
Definition transfer_funds (utcnow : Z) (req : TransferRequest.t) : M TransferResponse :=
  try_except
    (rows <- fetch_for_update req ;;
     match rows with
     | (Some sender, Some receiver) =>
         balance <- getattr sender Wallet.balance_cents ;;
         amount <- eval (TransferRequest.amount_cents req) ;;
         if balance <? amount then
           raise (HTTPException 400 "Insufficient funds")
         else
           balance <- getattr sender Wallet.balance_cents ;;
           amount <- eval (TransferRequest.amount_cents req) ;;
           set_balance_cents sender (balance - amount) ;;;
           balance <- getattr receiver Wallet.balance_cents ;;
           amount <- eval (TransferRequest.amount_cents req) ;;
           set_balance_cents receiver (balance + amount) ;;;
           sender_id <- getattr sender Wallet.id ;;
           receiver_id <- getattr receiver Wallet.id ;;
           amount <- eval (TransferRequest.amount_cents req) ;;
           txn_record <- add_transaction utcnow sender_id receiver_id amount ;;
           commit ;;;
           tx_id <- refresh_id txn_record ;;
           ret {| status := "success"; tx_id := tx_id |}
     | _ => raise (HTTPException 404 "One or more users not found")
     end)
    (fun e => rollback ;;; raise e).

(** ** The application: requests as they arrive at the server *)

Inductive Request :=
| PostCreateWallet (username : string)
| GetBalance (username : string)
| PostTransfer (utcnow : Z) (sender_username receiver_username : string)
    (amount_dollars : spec_float).

Inductive Response :=
| Created (result : Outcome string)
| Balance (balance : Outcome spec_float)
| Transferred (result : Outcome TransferResponse).

(** The transfer endpoint behind its request schema: a body that does not
    validate is answered 422 and never reaches [transfer_funds]. *)
Definition post_transfer (utcnow : Z) (sender receiver : string) (amount : spec_float)
    (db : Database) : Outcome TransferResponse * Database :=
  match TransferRequest.validate sender receiver amount with
  | Some req => get_db (transfer_funds utcnow req) db
  | None => (Raise RequestValidationError, db)
  end.

Definition app (r : Request) (db : Database) : Response * Database :=
  match r with
  | PostCreateWallet username =>
      let '(result, db') := get_db (create_wallet (WalletCreate.mk username)) db in
      (Created result, db')
  | GetBalance username =>
      let '(result, db') := get_db (get_balance username) db in
      (Balance result, db')
  | PostTransfer utcnow sender receiver amount =>
      let '(result, db') := post_transfer utcnow sender receiver amount db in
      (Transferred result, db')
  end.

(** A transfer as a request to the server. *)
Definition transfer_request (t : Z * string * string * spec_float) : Request :=
  let '(utcnow, sender, receiver, amount) := t in
  PostTransfer utcnow sender receiver amount.

(** The database after a sequence of requests served one after another. *)
Definition serve (rs : list Request) (db : Database) : Database :=
  foldl (fun db r => snd (app r db)) db rs.

(** ** Observations *)

(** The sum of all balances. *)
Fixpoint sum_balances (ws : list Wallet.t) : Z :=
  match ws with
  | [] => 0
  | w :: ws' => Wallet.balance_cents w + sum_balances ws'
  end.

Definition total_cents (db : Database) : Z := sum_balances (wallets db).

Definition non_negative (db : Database) : Prop :=
  Forall (fun w => 0 <= Wallet.balance_cents w) (wallets db).

(** ** What a committed transfer does to the tables *)

Definition debit (amount : Z) (w : Wallet.t) : Wallet.t :=
  Wallet.mk (Wallet.id w) (Wallet.user_name w) (Wallet.balance_cents w - amount).

Definition credit (amount : Z) (w : Wallet.t) : Wallet.t :=
  Wallet.mk (Wallet.id w) (Wallet.user_name w) (Wallet.balance_cents w + amount).

Definition moved (sender receiver : nat) (amount : Z) (ws : list Wallet.t) : list Wallet.t :=
  alter (credit amount) receiver (alter (debit amount) sender ws).

Definition sender_row (req : TransferRequest.t) (db : Database) : option nat :=
  first_row (has_user_name (TransferRequest.sender_username req)) (wallets db).

Definition receiver_row (req : TransferRequest.t) (db : Database) : option nat :=
  first_row (has_user_name (TransferRequest.receiver_username req)) (wallets db).

(** An update of one balance keeps the table's shape: the same rows with
    the same keys and names. *)
Definition same_account (w w' : Wallet.t) : Prop :=
  Wallet.id w' = Wallet.id w /\ Wallet.user_name w' = Wallet.user_name w.

(** The database after a committed transfer of [amount] from row
    [sender] to row [receiver]. *)
Definition committed (utcnow : Z) (sender receiver : nat) (sender_id receiver_id amount : Z)
    (db : Database) : Database :=
  {| wallets := moved sender receiver amount (wallets db);
     transactions := transactions db ++
       [Transaction.mk (transactions_id_seq db + 1) sender_id receiver_id amount utcnow];
     wallets_id_seq := wallets_id_seq db;
     transactions_id_seq := transactions_id_seq db + 1 |}.

(** What one transfer request answers and what it leaves in the
    database, by cases on what the two queries find. *)
Definition transfer_result (utcnow : Z) (req : TransferRequest.t) (db : Database)
    : Outcome TransferResponse * Database :=
  match sender_row req db, receiver_row req db with
  | Some s, Some r =>
      match wallets db !! s, wallets db !! r with
      | Some ws, Some wr =>
          match TransferRequest.amount_cents req with
          | Raise e => (Raise e, db)
          | Return a =>
              if Wallet.balance_cents ws <? a
              then (Raise (HTTPException 400 "Insufficient funds"), db)
              else if fits (wallets db) (moved s r a (wallets db))
              then (Return {| status := "success"; tx_id := transactions_id_seq db + 1 |},
                    committed utcnow s r (Wallet.id ws) (Wallet.id wr) a db)
              else (Raise DataError, db)
          end
      | _, _ => (Raise AttributeError, db)
      end
  | Some _, None =>
      if has_nul (TransferRequest.receiver_username req) then (Raise ValueError, db)
      else (Raise (HTTPException 404 "One or more users not found"), db)
  | None, Some _ =>
      if has_nul (TransferRequest.sender_username req) then (Raise ValueError, db)
      else (Raise (HTTPException 404 "One or more users not found"), db)
  | None, None =>
      if has_nul (TransferRequest.sender_username req) then (Raise ValueError, db)
      else if has_nul (TransferRequest.receiver_username req) then (Raise ValueError, db)
      else (Raise (HTTPException 404 "One or more users not found"), db)
  end.

(** ** Floats: signs and truncation *)

Definition sign_of (x : spec_float) : option bool :=
  match x with
  | S754_zero s | S754_infinity s | S754_finite s _ _ => Some s
  | S754_nan => None
  end.

(** What the specification calls truncation: of the two integers that
    enclose a rational, the one nearer to zero. *)
Definition Qtruncate (q : Q) : Z :=
  if Qle_bool 0 q then Qfloor q else Qceiling q.

(** ** Concurrent transfers and their row locks *)

(** The rows a transfer locks, in the order in which it asks for them:
    the session's lock list once lines 105-106 have run. *)
Definition lock_order (req : TransferRequest.t) (db : Database) : list nat :=
  locked (snd (fetch_for_update req (SessionLocal db))).

Definition swap (req : TransferRequest.t) : TransferRequest.t :=
  TransferRequest.mk (TransferRequest.receiver_username req)
    (TransferRequest.sender_username req) (TransferRequest.amount_dollars req).

(** A transfer in flight: the rows it still has to lock, in program
    order, and the rows it holds; or a transfer that has committed or
    rolled back and so holds nothing. *)
Inductive Worker :=
| Busy (waiting holding : list nat)
| Finished.

Definition holding_of (w : Worker) : list nat :=
  match w with
  | Busy _ holding => holding
  | Finished => []
  end.

Definition workers (db : Database) (reqs : list TransferRequest.t) : list Worker :=
  (fun req => Busy (lock_order req db) []) <$> reqs.

Definition held_by_other (ws : list Worker) (i row : nat) : Prop :=
  exists j w, j <> i /\ ws !! j = Some w /\ row ∈ holding_of w.

(** One step of the database serving the transactions: a [SELECT ... FOR
    UPDATE] is granted when no other transaction holds the row, and waits
    otherwise; a transaction that has its rows runs to its commit or
    rollback, which releases them. *)
Inductive step (ws : list Worker) : list Worker -> Prop :=
| step_lock (i row : nat) (rest holding : list nat) :
    ws !! i = Some (Busy (row :: rest) holding) ->
    ~ held_by_other ws i row ->
    step ws (<[i := Busy rest (holding ++ [row])]> ws)
| step_finish (i : nat) (holding : list nat) :
    ws !! i = Some (Busy [] holding) ->
    step ws (<[i := Finished]> ws).

(** Every transaction waits for a row that another one holds. *)
Definition circular_wait (ws : list Worker) : Prop :=
  ws <> [] /\
  forall i w, ws !! i = Some w ->
    exists row rest holding, w = Busy (row :: rest) holding /\ held_by_other ws i row.

(** The canonical order of the specification: a transaction asks for its
    rows in increasing order, so what it holds is below what it waits
    for. *)
Definition in_order (w : Worker) : Prop :=
  match w with
  | Busy waiting holding => StronglySorted lt (holding ++ waiting)
  | Finished => True
  end.

(** ** Sample data *)

Definition alice_and_bob : Database :=
  {| wallets := [Wallet.mk 1 "alice" 10000; Wallet.mk 2 "bob" 10000];
     transactions := [];
     wallets_id_seq := 2;
     transactions_id_seq := 0 |}.

Definition dollars_10 : spec_float := PyFloat.of_int 10.

Definition alice_to_bob (amount : spec_float) : TransferRequest.t :=
  TransferRequest.mk "alice" "bob" amount.

Definition bob_to_alice (amount : spec_float) : TransferRequest.t :=
  TransferRequest.mk "bob" "alice" amount.

Definition alice_bob_carol : Database :=
  {| wallets := [Wallet.mk 1 "alice" 10000; Wallet.mk 2 "bob" 10000;
                 Wallet.mk 3 "carol" 250];
     transactions := [];
     wallets_id_seq := 3;
     transactions_id_seq := 0 |}.

Definition tenth_of_a_cent : spec_float := PyFloat.decimal 1 1000.

(** ** Integrity of the tables *)

Definition user_names (db : Database) : list string :=
  Wallet.user_name <$> wallets db.

Definition wallet_ids (db : Database) : list Z :=
  Wallet.id <$> wallets db.

Definition transaction_ids (db : Database) : list Z :=
  Transaction.id <$> transactions db.

(** [unique=True] on [Wallet.user_name]. *)
Definition unique_names (db : Database) : Prop := NoDup (user_names db).

(** [primary_key=True] on both tables: the keys are distinct and were
    issued by the table's sequence. *)
Definition primary_keys (db : Database) : Prop :=
  NoDup (wallet_ids db) /\
  Forall (fun k => k <= wallets_id_seq db) (wallet_ids db) /\
  NoDup (transaction_ids db) /\
  Forall (fun k => k <= transactions_id_seq db) (transaction_ids db).

(** [ForeignKey("wallets.id")] on [sender_id] and [receiver_id]. *)
Definition foreign_keys (db : Database) : Prop :=
  Forall (fun t => Transaction.sender_id t ∈ wallet_ids db /\
                   Transaction.receiver_id t ∈ wallet_ids db)
         (transactions db).

(** The balance in cents of the wallet a name resolves to. *)
(** A name whose lookup fails in the driver: no wallet has it and it
    holds a NUL character. *)
Definition refused (username : string) (db : Database) : Prop :=
  (username ∉ user_names db) /\ has_nul username = true.

Definition cents_of (username : string) (db : Database) : option Z :=
  match first_row (has_user_name username) (wallets db) with
  | Some row => Wallet.balance_cents <$> wallets db !! row
  | None => None
  end.


Definition sample_requests : list Request :=
  [PostCreateWallet "carol"; PostTransfer 7 "alice" "carol" dollars_10;
   PostCreateWallet "alice"; GetBalance "bob"; PostTransfer 8 "carol" "carol" dollars_10].

Definition alice_5029 : Database :=
  {| wallets := [Wallet.mk 1 "alice" 5029; Wallet.mk 2 "bob" 0];
     transactions := [];
     wallets_id_seq := 2;
     transactions_id_seq := 0 |}.

(** The largest finite float, about 1.8e308. *)
Definition largest_float : spec_float := S754_finite false 9007199254740991 971.

(** ** The concurrency test, [test_concurrency.py] *)

Definition float_sub : spec_float -> spec_float -> spec_float :=
  SFsub PyFloat.prec PyFloat.emax.

Definition float_eqb : spec_float -> spec_float -> bool := SFeqb.

(** The request every thread posts: ten dollars from alice to bob.  The
    argument is the time at which the server handles it. *)
Definition make_transfer (utcnow : Z) : Request :=
  PostTransfer utcnow "alice" "bob" (PyFloat.of_int 10).

(** [requests.get(f"{BASE_URL}/balance/{username}").json()['balance']]:
    an error body has no such key. *)
Definition balance_of (username : string) (db : Database) : option spec_float :=
  match fst (get_db (get_balance username) db) with
  | Return balance => Some balance
  | Raise _ => None
  end.

(** [run_test]: the verdict it prints ([Some true] for SUCCESS, [Some
    false] for FAILURE, [None] when it stops on a missing key) and the
    database it leaves, with the five requests of the threads handled one
    after another, request [i] at time [utcnow i]. *)
Definition run_test (utcnow : nat -> Z) (db : Database) : option bool * Database :=
  let db1 := snd (app (PostCreateWallet "alice") db) in
  let db2 := snd (app (PostCreateWallet "bob") db1) in
  match balance_of "alice" db2 with
  | None => (None, db2)
  | Some initial_balance =>
      let db3 := serve ((fun i => make_transfer (utcnow i)) <$> seq 0 5) db2 in
      match balance_of "alice" db3 with
      | None => (None, db3)
      | Some final_balance =>
          let expected := float_sub initial_balance (PyFloat.of_int 50) in
          (Some (float_eqb final_balance expected), db3)
      end
  end.

(** Transactions that can no longer move: one of them is still busy, and
    no step is possible. *)
Definition stuck (ws : list Worker) : Prop :=
  (exists i waiting holding, ws !! i = Some (Busy waiting holding)) /\
  forall ws', ~ step ws ws'.

(** Transactions that all ask for the rows of [order], in that order:
    what a busy one holds and what it waits for make up [order]. *)
Definition follows (order : list nat) (w : Worker) : Prop :=
  match w with
  | Busy waiting holding => holding ++ waiting = order
  | Finished => True
  end.

(** Whether a transfer request commits on a wallets table, and if so
    between which rows and with which amount. *)
Definition plan (sender receiver : string) (amount : spec_float) (l : list Wallet.t)
    : option (nat * nat * Z) :=
  match TransferRequest.validate sender receiver amount with
  | None => None
  | Some req =>
      match first_row (has_user_name sender) l, first_row (has_user_name receiver) l with
      | Some s, Some r =>
          match l !! s, TransferRequest.amount_cents req with
          | Some ws, Return a =>
              if Wallet.balance_cents ws <? a then None
              else if fits l (moved s r a l) then Some (s, r, a)
              else None
          | _, _ => None
          end
      | _, _ => None
      end
  end.

(** What a transfer request does to the wallets table. *)
Definition effect (sender receiver : string) (amount : spec_float) (l : list Wallet.t)
    : list Wallet.t :=
  match plan sender receiver amount l with
  | Some (s, r, a) => moved s r a l
  | None => l
  end.

(** ** Lemmas on the primitives *)

Lemma first_row_Some {A} (p : A -> bool) (rows : list A) (i : nat) :
  first_row p rows = Some i -> exists x, rows !! i = Some x /\ p x = true.
Proof.
  revert i. induction rows as [|row rows IH]; intros i; simpl; [discriminate|].
  destruct (p row) eqn:Hp.
  - intros [= <-]. eauto.
  - destruct (first_row p rows) as [j|]; simpl; [|discriminate].
    intros [= <-]. destruct (IH j eq_refl) as (x & Hx & Hpx). eauto.
Qed.

Lemma first_row_None {A} (p : A -> bool) (rows : list A) :
  first_row p rows = None -> forall i x, rows !! i = Some x -> p x = false.
Proof.
  induction rows as [|row rows IH]; simpl; intros H i x Hx; [destruct i; discriminate|].
  destruct (p row) eqn:Hp; [discriminate|].
  destruct (first_row p rows) eqn:Hf; [discriminate|].
  destruct i as [|i]; simpl in Hx.
  - by injection Hx as <-.
  - eauto.
Qed.

Lemma first_row_same_name (name : string) (ws : list Wallet.t) (i : nat) (w : Wallet.t) :
  first_row (has_user_name name) ws = Some i -> ws !! i = Some w ->
  Wallet.user_name w = name.
Proof.
  intros Hf Hw. destruct (first_row_Some _ _ _ Hf) as (x & Hx & Hp).
  rewrite Hw in Hx. injection Hx as <-.
  unfold has_user_name in Hp. by apply bool_decide_eq_true in Hp.
Qed.

Lemma list_alter_insert {A} (f : A -> A) (l : list A) (i : nat) (x : A) :
  l !! i = Some x -> alter f i l = <[i := f x]> l.
Proof.
  revert i. induction l as [|y l IH]; intros [|i]; simpl; try discriminate.
  - by intros [= ->].
  - intros H. f_equal. by apply IH.
Qed.

Lemma view_lock_row (row : nat) (s : Session) : view (lock_row row s) = view s.
Proof. unfold lock_row. by destruct (bool_decide _). Qed.

Lemma bind_lock_row (row : nat) (s : Session) : bind (lock_row row s) = bind s.
Proof. unfold lock_row. by destruct (bool_decide _). Qed.

Lemma lookup_alter_account (f : Wallet.t -> Wallet.t) (l : list Wallet.t) (i j : nat)
    (w : Wallet.t) :
  (forall x, same_account x (f x)) ->
  l !! j = Some w ->
  exists w', alter f i l !! j = Some w' /\ same_account w w' /\ (i <> j -> w' = w).
Proof.
  intros Hf Hw. rewrite list_lookup_alter. case_decide as Hij.
  - subst j. rewrite Hw. simpl. exists (f w). split_and!; [done|apply Hf|done].
  - exists w. by split_and!.
Qed.

Lemma same_account_debit (a : Z) (w : Wallet.t) : same_account w (debit a w).
Proof. by split. Qed.

Lemma same_account_credit (a : Z) (w : Wallet.t) : same_account w (credit a w).
Proof. by split. Qed.

Lemma lookup_moved (s r : nat) (a : Z) (l : list Wallet.t) (j : nat) (w : Wallet.t) :
  l !! j = Some w ->
  exists w', moved s r a l !! j = Some w' /\ same_account w w' /\
             (s <> j -> r <> j -> w' = w).
Proof.
  intros Hw. unfold moved.
  destruct (lookup_alter_account (debit a) l s j w (same_account_debit a) Hw)
    as (w1 & Hw1 & [Hid1 Hn1] & Hne1).
  destruct (lookup_alter_account (credit a) _ r j w1 (same_account_credit a) Hw1)
    as (w2 & Hw2 & [Hid2 Hn2] & Hne2).
  exists w2. split_and!; [done|split; congruence|].
  intros Hs Hr. rewrite (Hne2 Hr). by apply Hne1.
Qed.

(** What the commit checks: a row the transaction left alone passes, a
    new row passes when its balance is in range. *)
Lemma row_fits_refl (w : Wallet.t) : row_fits w w = true.
Proof. unfold row_fits. by rewrite Z.eqb_refl. Qed.

Lemma row_fits_sym (w w' : Wallet.t) : row_fits w w' = row_fits w' w.
Proof. unfold row_fits. by rewrite Z.eqb_sym, (andb_comm (in_range _)). Qed.

Lemma in_range_iff (z : Z) : in_range z = true <-> -2147483648 <= z <= 2147483647.
Proof. unfold in_range. rewrite andb_true_iff, !Z.leb_le. done. Qed.

Lemma row_fits_in_range (w w' : Wallet.t) :
  in_range (Wallet.balance_cents w) = true ->
  in_range (Wallet.balance_cents w') = true ->
  row_fits w w' = true.
Proof. unfold row_fits. intros -> ->. apply orb_true_r. Qed.

Lemma fits_refl (l : list Wallet.t) : fits l l = true.
Proof. induction l as [|w l IH]; simpl; [done|]. by rewrite row_fits_refl. Qed.

Lemma fits_sym (l l' : list Wallet.t) :
  length l = length l' -> fits l l' = fits l' l.
Proof.
  revert l'. induction l as [|w l IH]; intros [|w' l']; simpl; try done.
  intros [= Hlen]. by rewrite row_fits_sym, IH.
Qed.

Lemma fits_app_new (l : list Wallet.t) (w : Wallet.t) :
  fits l (l ++ [w]) = in_range (Wallet.balance_cents w).
Proof.
  induction l as [|x l IH]; simpl.
  - by rewrite andb_true_r.
  - by rewrite row_fits_refl.
Qed.

Lemma fits_alter (f : Wallet.t -> Wallet.t) (l : list Wallet.t) (i : nat) :
  fits l (alter f i l) =
  match l !! i with Some w => row_fits w (f w) | None => true end.
Proof.
  revert i. induction l as [|x l IH]; intros [|i]; simpl; try done.
  - by rewrite fits_refl, andb_true_r.
  - rewrite row_fits_refl. simpl. apply IH.
Qed.

Lemma fits_alter_alter (f g : Wallet.t -> Wallet.t) (l : list Wallet.t) (i j : nat) :
  i <> j ->
  fits l (alter g j (alter f i l)) =
  match l !! i with Some w => row_fits w (f w) | None => true end &&
  match l !! j with Some w => row_fits w (g w) | None => true end.
Proof.
  revert i j. induction l as [|x l IH]; intros [|i] [|j] Hij; simpl; try done.
  - pose proof (fits_alter g l j) as H. unfold alter in H. by rewrite H.
  - pose proof (fits_alter f l i) as H. unfold alter in H. rewrite H. apply andb_comm.
  - rewrite row_fits_refl. simpl. apply IH. lia.
Qed.

(** A transfer between two rows writes both; a transfer of a row to itself
    ends with the balance it started from and writes nothing. *)
Lemma fits_moved (s r : nat) (a : Z) (l : list Wallet.t) (ws wr : Wallet.t) :
  l !! s = Some ws -> l !! r = Some wr ->
  fits l (moved s r a l) =
  if decide (s = r) then true
  else row_fits ws (debit a ws) && row_fits wr (credit a wr).
Proof.
  intros Hs Hr. unfold moved. case_decide as Hsr.
  - subst r. rewrite list_alter_alter_eq, fits_alter, Hs.
    unfold row_fits, credit, debit. simpl.
    replace (Wallet.balance_cents ws - a + a) with (Wallet.balance_cents ws) by lia.
    by rewrite Z.eqb_refl.
  - by rewrite fits_alter_alter, Hs, Hr.
Qed.

Arguments lock_row : simpl never.
Arguments fits : simpl never.
Arguments has_nul : simpl never.

Ltac run_session :=
  cbv beta delta [get_db try_except bind_M fetch_for_update query_wallet_for_update
    query_wallet getattr eval raise ret rollback commit set_balance_cents
    add_transaction add_wallet refresh_id SessionLocal with_view with_wallets];
  simpl.

Ltac session_simpl :=
  repeat first [rewrite view_lock_row | rewrite bind_lock_row | progress simpl].

(** [transfer_funds] in closed form.  Whatever the outcome, the session
    ends with nothing uncommitted and no row locked. *)
Lemma transfer_funds_session (utcnow : Z) (req : TransferRequest.t) (db : Database) :
  transfer_funds utcnow req (SessionLocal db) =
  (fst (transfer_result utcnow req db),
   {| bind := snd (transfer_result utcnow req db);
      view := snd (transfer_result utcnow req db);
      locked := [] |}).
Proof.
  unfold transfer_result, transfer_funds, sender_row, receiver_row. run_session.
  destruct (first_row (has_user_name (TransferRequest.sender_username req)) (wallets db))
    as [s|] eqn:Hs; session_simpl.
  2:{ destruct (has_nul (TransferRequest.sender_username req)); session_simpl.
      { by destruct (first_row (has_user_name (TransferRequest.receiver_username req))
                       (wallets db)). }
      destruct (first_row (has_user_name (TransferRequest.receiver_username req)) (wallets db));
        session_simpl; [done|].
      destruct (has_nul (TransferRequest.receiver_username req)); by session_simpl. }
  destruct (first_row (has_user_name (TransferRequest.receiver_username req)) (wallets db))
    as [r|] eqn:Hr; session_simpl.
  2:{ destruct (has_nul (TransferRequest.receiver_username req)); by session_simpl. }
  destruct (first_row_Some _ _ _ Hs) as (ws & Hws & _).
  destruct (first_row_Some _ _ _ Hr) as (wr & Hwr & _).
  rewrite Hws, Hwr. session_simpl.
  destruct (TransferRequest.amount_cents req) as [a|e]; session_simpl; [|done].
  destruct (Wallet.balance_cents ws <? a) eqn:Hlt; session_simpl; [done|].
  repeat first [rewrite Hws | progress session_simpl].
  rewrite <- (list_alter_insert (debit a) _ _ _ Hws : _ = <[s := Wallet.mk _ _ _]> _).
  destruct (lookup_alter_account (debit a) (wallets db) s r wr (same_account_debit a) Hwr)
    as (wr1 & Hwr1 & _ & _).
  repeat first [rewrite Hwr1 | progress session_simpl].
  rewrite <- (list_alter_insert (credit a) _ _ _ Hwr1 : _ = <[r := Wallet.mk _ _ _]> _).
  fold (moved s r a (wallets db)).
  destruct (lookup_moved s r a (wallets db) s ws Hws) as (ws2 & Hws2 & [Hids _] & _).
  destruct (lookup_moved s r a (wallets db) r wr Hwr) as (wr2 & Hwr2 & [Hidr _] & _).
  repeat first [rewrite Hws2 | rewrite Hwr2 | progress session_simpl].
  destruct (fits (wallets db) (moved s r a (wallets db))); session_simpl; [|done].
  rewrite list_lookup_middle by done. session_simpl.
  unfold committed. by rewrite Hids, Hidr.
Qed.

Lemma transfer_funds_run (utcnow : Z) (req : TransferRequest.t) (db : Database) :
  get_db (transfer_funds utcnow req) db = transfer_result utcnow req db.
Proof.
  unfold get_db. rewrite transfer_funds_session. simpl.
  by destruct (transfer_result utcnow req db).
Qed.

(** No row lock outlives the request that took it. *)
Lemma transfer_funds_releases (utcnow : Z) (req : TransferRequest.t) (db : Database) :
  locked (snd (transfer_funds utcnow req (SessionLocal db))) = [].
Proof. by rewrite transfer_funds_session. Qed.

Lemma first_row_app_fresh {A} (p : A -> bool) (rows : list A) (x : A) :
  first_row p rows = None -> p x = true ->
  first_row p (rows ++ [x]) = Some (length rows).
Proof.
  induction rows as [|row rows IH]; simpl; intros Hf Hp.
  - by rewrite Hp.
  - destruct (p row); [discriminate|].
    destruct (first_row p rows); [discriminate|].
    by rewrite IH.
Qed.

(** [create_wallet] in closed form. *)
Lemma create_wallet_run (data : WalletCreate.t) (db : Database) :
  get_db (create_wallet data) db =
  match first_row (has_user_name (WalletCreate.username data)) (wallets db) with
  | Some _ => (Return "User already exists"%string, db)
  | None =>
      if has_nul (WalletCreate.username data) then (Raise ValueError, db)
      else
      (Return ("Wallet created for " +:+ WalletCreate.username data +:+ " with $100.00")%string,
       {| wallets := wallets db ++
            [Wallet.mk (wallets_id_seq db + 1) (WalletCreate.username data) bonus_cents];
          transactions := transactions db;
          wallets_id_seq := wallets_id_seq db + 1;
          transactions_id_seq := transactions_id_seq db |})
  end.
Proof.
  unfold create_wallet. run_session.
  destruct (first_row _ (wallets db)); simpl; [done|].
  destruct (has_nul (WalletCreate.username data)); simpl; [done|].
  by rewrite fits_app_new.
Qed.

(** [get_balance] in closed form: a read, the database is as before. *)
Lemma get_balance_run (username : string) (db : Database) :
  get_db (get_balance username) db =
  (match first_row (has_user_name username) (wallets db) with
   | Some row =>
       match wallets db !! row with
       | Some w =>
           match PyFloat.float (Wallet.balance_cents w) with
           | Return balance => Return (PyFloat.div balance PyFloat.hundred)
           | Raise e => Raise e
           end
       | None => Raise AttributeError
       end
   | None =>
       if has_nul username then Raise ValueError
       else Raise (HTTPException 404 "User not found")
   end, db).
Proof.
  unfold get_balance. run_session.
  destruct (first_row _ (wallets db)) as [row|]; simpl;
    [|by destruct (has_nul username)].
  destruct (wallets db !! row) as [w|]; simpl; [|done].
  by destruct (PyFloat.float (Wallet.balance_cents w)).
Qed.

(** A transfer that answers 200 has found both rows, had funds, and left
    the database as [committed] says. *)
Lemma transfer_funds_Return (utcnow : Z) (req : TransferRequest.t) (db db' : Database)
    (resp : TransferResponse) :
  get_db (transfer_funds utcnow req) db = (Return resp, db') ->
  exists s r ws wr a,
    sender_row req db = Some s /\ receiver_row req db = Some r /\
    wallets db !! s = Some ws /\ wallets db !! r = Some wr /\
    TransferRequest.amount_cents req = Return a /\
    a <= Wallet.balance_cents ws /\
    resp = {| status := "success"; tx_id := transactions_id_seq db + 1 |} /\
    db' = committed utcnow s r (Wallet.id ws) (Wallet.id wr) a db.
Proof.
  rewrite transfer_funds_run. unfold transfer_result.
  destruct (sender_row req db) as [s|], (receiver_row req db) as [r|];
    repeat match goal with
           | |- context [if has_nul ?n then _ else _] => destruct (has_nul n)
           end; try discriminate.
  destruct (wallets db !! s) as [ws|] eqn:Hws; [|discriminate].
  destruct (wallets db !! r) as [wr|] eqn:Hwr; [|by destruct (wallets db !! r)].
  destruct (TransferRequest.amount_cents req) as [a|e]; [|discriminate].
  destruct (Wallet.balance_cents ws <? a) eqn:Hlt; [discriminate|].
  destruct (fits (wallets db) (moved s r a (wallets db))); [|discriminate].
  intros [= <- <-]. exists s, r, ws, wr, a.
  apply Z.ltb_ge in Hlt. by split_and!.
Qed.

(** A transfer that answers 200 wrote balances the columns can hold. *)
Lemma transfer_funds_fits (utcnow : Z) (req : TransferRequest.t) (db db' : Database)
    (resp : TransferResponse) (s r : nat) (a : Z) :
  get_db (transfer_funds utcnow req) db = (Return resp, db') ->
  sender_row req db = Some s -> receiver_row req db = Some r ->
  TransferRequest.amount_cents req = Return a ->
  fits (wallets db) (moved s r a (wallets db)) = true.
Proof.
  rewrite transfer_funds_run. unfold transfer_result.
  intros H Hs Hr Ha. rewrite Hs, Hr, Ha in H.
  destruct (wallets db !! s) as [ws|]; [|discriminate].
  destruct (wallets db !! r) as [wr|]; [|discriminate].
  destruct (Wallet.balance_cents ws <? a); [discriminate|].
  by destruct (fits (wallets db) (moved s r a (wallets db))).
Qed.

(** A transfer that raises, whatever it raises, leaves the database as it
    found it. *)
Lemma transfer_funds_Raise (utcnow : Z) (req : TransferRequest.t) (db db' : Database)
    (e : Exception) :
  get_db (transfer_funds utcnow req) db = (Raise e, db') -> db' = db.
Proof.
  rewrite transfer_funds_run. unfold transfer_result.
  repeat match goal with
         | |- context [match ?x with _ => _ end] => destruct x
         end; congruence.
Qed.

Lemma sum_balances_alter (f : Wallet.t -> Wallet.t) (l : list Wallet.t) (i : nat)
    (w : Wallet.t) :
  l !! i = Some w ->
  sum_balances (alter f i l) =
  sum_balances l + (Wallet.balance_cents (f w) - Wallet.balance_cents w).
Proof.
  revert i. induction l as [|x l IH]; intros [|i]; simpl; try discriminate.
  - intros [= ->]. lia.
  - intros H. specialize (IH i H). unfold alter in IH. lia.
Qed.

Lemma sum_balances_app (l1 l2 : list Wallet.t) :
  sum_balances (l1 ++ l2) = sum_balances l1 + sum_balances l2.
Proof. induction l1 as [|x l1 IH]; simpl; lia. Qed.

(** The debit and the credit cancel in the sum, also when they hit the
    same row. *)
Lemma sum_balances_moved (s r : nat) (a : Z) (l : list Wallet.t) (ws wr : Wallet.t) :
  l !! s = Some ws -> l !! r = Some wr ->
  sum_balances (moved s r a l) = sum_balances l.
Proof.
  intros Hs Hr. unfold moved.
  destruct (lookup_alter_account (debit a) l s r wr (same_account_debit a) Hr)
    as (wr1 & Hwr1 & _ & _).
  rewrite (sum_balances_alter _ _ _ _ Hwr1), (sum_balances_alter _ _ _ _ Hs).
  simpl. lia.
Qed.

(** ** Lemmas on floats *)

Lemma hundred_eq : PyFloat.hundred = S754_finite false 7036874417766400 (-46).
Proof. vm_compute. reflexivity. Qed.

(** Rounding keeps the sign it is given. *)
Lemma binary_round_aux_sign (sx : bool) (mx ex : Z) (lx : location) :
  sign_of (binary_round_aux PyFloat.prec PyFloat.emax sx mx ex lx) = Some sx \/
  binary_round_aux PyFloat.prec PyFloat.emax sx mx ex lx = S754_nan.
Proof.
  unfold binary_round_aux.
  destruct (shr_fexp _ _ mx ex lx) as [mrs' e'].
  destruct (shr_fexp _ _ _ e' loc_Exact) as [mrs'' e''].
  destruct (shr_m mrs''); [by left| |by right].
  destruct (_ <=? _); by left.
Qed.

(** What passes [gt=0] is a positive number or plus infinity. *)
Lemma gt_zero_sign (x : spec_float) :
  PyFloat.ltb PyFloat.zero x = true ->
  sign_of x = Some false /\ x <> S754_zero false.
Proof. by destruct x as [[]|[]| |[] m e]. Qed.

Lemma mul_hundred_sign (x : spec_float) :
  sign_of x = Some false ->
  sign_of (PyFloat.mul x PyFloat.hundred) = Some false \/
  PyFloat.mul x PyFloat.hundred = S754_nan.
Proof.
  rewrite hundred_eq. unfold PyFloat.mul.
  destruct x as [s|s| |s m e]; simpl; try discriminate; intros [= ->]; try by left.
  apply (binary_round_aux_sign false).
Qed.

Lemma int_sign (x : spec_float) (a : Z) :
  sign_of x = Some false -> PyFloat.int x = Return a -> 0 <= a.
Proof.
  destruct x as [s|s| |s m e]; simpl; try discriminate.
  - intros _ [= <-]. lia.
  - intros [= ->] [= <-]. destruct (0 <=? e) eqn:He.
    + apply Z.shiftl_nonneg. lia.
    + apply Z.shiftr_nonneg. lia.
Qed.

(** A request that validates never moves a negative amount. *)
Lemma amount_cents_nonneg (sender receiver : string) (amount : spec_float)
    (req : TransferRequest.t) (a : Z) :
  TransferRequest.validate sender receiver amount = Some req ->
  TransferRequest.amount_cents req = Return a -> 0 <= a.
Proof.
  unfold TransferRequest.validate, TransferRequest.amount_cents.
  destruct (PyFloat.ltb PyFloat.zero amount) eqn:Hgt; [|discriminate].
  intros [= <-]. simpl. apply gt_zero_sign in Hgt as [Hs _].
  destruct (mul_hundred_sign amount Hs) as [Hm | Hm].
  - by apply int_sign.
  - by rewrite Hm.
Qed.

(** ** Lemmas on the endpoints *)

Lemma post_transfer_Raise (utcnow : Z) (sender receiver : string) (amount : spec_float)
    (db db' : Database) (e : Exception) :
  post_transfer utcnow sender receiver amount db = (Raise e, db') -> db' = db.
Proof.
  unfold post_transfer.
  destruct (TransferRequest.validate sender receiver amount) as [req|].
  - apply transfer_funds_Raise.
  - by intros [= _ <-].
Qed.

(** Both ways a transfer is turned down after the rows are fetched. *)
Lemma transfer_not_found (utcnow : Z) (req : TransferRequest.t) (db : Database) :
  has_nul (TransferRequest.sender_username req) = false ->
  has_nul (TransferRequest.receiver_username req) = false ->
  sender_row req db = None \/ receiver_row req db = None ->
  get_db (transfer_funds utcnow req) db =
  (Raise (HTTPException 404 "One or more users not found"), db).
Proof.
  rewrite transfer_funds_run. unfold transfer_result. intros -> ->.
  intros [-> | ->]; [by destruct (receiver_row req db)|].
  by destruct (sender_row req db).
Qed.

Lemma transfer_insufficient (utcnow : Z) (req : TransferRequest.t) (db : Database)
    (s r : nat) (ws : Wallet.t) (a : Z) :
  sender_row req db = Some s -> receiver_row req db = Some r ->
  wallets db !! s = Some ws ->
  TransferRequest.amount_cents req = Return a ->
  Wallet.balance_cents ws < a ->
  get_db (transfer_funds utcnow req) db =
  (Raise (HTTPException 400 "Insufficient funds"), db).
Proof.
  intros Hs Hr Hws Ha Hlt. rewrite transfer_funds_run. unfold transfer_result.
  rewrite Hs, Hr, Hws, Ha.
  destruct (first_row_Some _ _ _ Hr) as (wr & -> & _).
  by rewrite (proj2 (Z.ltb_lt _ _) Hlt).
Qed.

Lemma length_moved (s r : nat) (a : Z) (l : list Wallet.t) :
  length (moved s r a l) = length l.
Proof. unfold moved. by rewrite !length_alter. Qed.

Lemma non_negative_moved (s r : nat) (a : Z) (l : list Wallet.t) (ws : Wallet.t) :
  l !! s = Some ws -> 0 <= a <= Wallet.balance_cents ws ->
  Forall (fun w => 0 <= Wallet.balance_cents w) l ->
  Forall (fun w => 0 <= Wallet.balance_cents w) (moved s r a l).
Proof.
  intros Hs Ha Hl. unfold moved. apply Forall_alter.
  - apply Forall_alter; [done|].
    intros x Hx _. rewrite Hs in Hx. injection Hx as <-. simpl. lia.
  - intros x _ Hx. simpl. lia.
Qed.

(** What each request does to the sum of the balances and to the number
    of wallets. *)
Lemma app_total_cents (r : Request) (db : Database) :
  total_cents (snd (app r db)) =
  total_cents db +
  bonus_cents * (Z.of_nat (length (wallets (snd (app r db)))) - Z.of_nat (length (wallets db))).
Proof.
  destruct r as [username|username|utcnow sender receiver amount]; simpl.
  - rewrite create_wallet_run.
    destruct (first_row _ (wallets db)); simpl; [lia|].
    destruct (has_nul username); simpl; [lia|].
    unfold total_cents. simpl. rewrite sum_balances_app, length_app. simpl. lia.
  - rewrite get_balance_run. simpl. lia.
  - destruct (post_transfer utcnow sender receiver amount db) as [[resp|e] db'] eqn:Hp; simpl.
    + unfold post_transfer in Hp.
      destruct (TransferRequest.validate sender receiver amount) as [req|]; [|discriminate].
      apply transfer_funds_Return in Hp
        as (s & r & ws & wr & a & _ & _ & Hws & Hwr & _ & _ & _ & ->).
      unfold total_cents. simpl.
      rewrite (sum_balances_moved _ _ _ _ _ _ Hws Hwr), length_moved. lia.
    + apply post_transfer_Raise in Hp as ->. lia.
Qed.

Lemma app_non_negative (r : Request) (db : Database) :
  non_negative db -> non_negative (snd (app r db)).
Proof.
  intros Hdb.
  destruct r as [username|username|utcnow sender receiver amount]; simpl.
  - rewrite create_wallet_run.
    destruct (first_row _ (wallets db)); simpl; [done|].
    destruct (has_nul username); simpl; [done|].
    unfold non_negative. simpl. apply Forall_app. split; [done|].
    repeat constructor. simpl. unfold bonus_cents. lia.
  - by rewrite get_balance_run.
  - destruct (post_transfer utcnow sender receiver amount db) as [[resp|e] db'] eqn:Hp; simpl.
    + unfold post_transfer in Hp.
      destruct (TransferRequest.validate sender receiver amount) as [req|] eqn:Hv;
        [|discriminate].
      apply transfer_funds_Return in Hp
        as (s & r & ws & wr & a & _ & _ & Hws & Hwr & Ha & Hle & _ & ->).
      unfold non_negative. simpl.
      apply (non_negative_moved _ _ _ _ ws); [done| |done].
      split; [|done]. by eapply amount_cents_nonneg.
    + by apply post_transfer_Raise in Hp as ->.
Qed.

Lemma serve_cons (r : Request) (rs : list Request) (db : Database) :
  serve (r :: rs) db = serve rs (snd (app r db)).
Proof. reflexivity. Qed.

(** The sum of the balances after a sequence of requests. *)
Lemma serve_total_cents (rs : list Request) (db : Database) :
  total_cents (serve rs db) =
  total_cents db +
  bonus_cents * (Z.of_nat (length (wallets (serve rs db))) - Z.of_nat (length (wallets db))).
Proof.
  revert db. induction rs as [|r rs IH]; intros db.
  - simpl. lia.
  - rewrite serve_cons, IH, app_total_cents. lia.
Qed.

(** Transfers add no wallet and remove none. *)
Lemma post_transfer_length (utcnow : Z) (sender receiver : string) (amount : spec_float)
    (db : Database) :
  length (wallets (snd (post_transfer utcnow sender receiver amount db))) =
  length (wallets db).
Proof.
  destruct (post_transfer utcnow sender receiver amount db) as [[resp|e] db'] eqn:Hp; simpl.
  - unfold post_transfer in Hp.
    destruct (TransferRequest.validate sender receiver amount) as [req|]; [|discriminate].
    apply transfer_funds_Return in Hp
      as (s & r & ws & wr & a & _ & _ & _ & _ & _ & _ & _ & ->).
    simpl. apply length_moved.
  - by apply post_transfer_Raise in Hp as ->.
Qed.

Lemma serve_transfers_length (ts : list (Z * string * string * spec_float)) (db : Database) :
  length (wallets (serve (transfer_request <$> ts) db)) = length (wallets db).
Proof.
  revert db. induction ts as [|[[[utcnow sender] receiver] amount] ts IH]; intros db; [done|].
  rewrite fmap_cons, serve_cons, IH. simpl.
  pose proof (post_transfer_length utcnow sender receiver amount db) as H.
  by destruct (post_transfer utcnow sender receiver amount db).
Qed.

Lemma serve_non_negative (rs : list Request) (db : Database) :
  non_negative db -> non_negative (serve rs db).
Proof.
  revert db. induction rs as [|r rs IH]; intros db Hdb; [done|].
  rewrite serve_cons. by apply IH, app_non_negative.
Qed.

Lemma credit_debit (a : Z) (w : Wallet.t) : credit a (debit a w) = w.
Proof. destruct w as [k n b]. unfold credit, debit. simpl. f_equal. lia. Qed.

(** On one and the same row the debit and the credit cancel. *)
Lemma moved_same_row (row : nat) (a : Z) (l : list Wallet.t) : moved row row a l = l.
Proof.
  unfold moved. rewrite list_alter_alter_eq. apply list_alter_id.
  intros w. apply credit_debit.
Qed.

Lemma fmap_alter_unchanged {A B} (f : A -> B) (g : A -> A) (l : list A) (i : nat) :
  (forall x, f (g x) = f x) -> f <$> alter g i l = f <$> l.
Proof.
  intros Hfg. revert i. induction l as [|x l IH]; intros [|i]; simpl; [done|done| |].
  - by rewrite Hfg.
  - f_equal. apply IH.
Qed.

Lemma Qtruncate_pos (n : positive) (d : positive) :
  Qtruncate (Zpos n # d) = Zpos n / Zpos d.
Proof. reflexivity. Qed.

Lemma Qtruncate_neg (n : positive) (d : positive) :
  Qtruncate (Zneg n # d) = - (Zpos n / Zpos d).
Proof. reflexivity. Qed.

(** [int] drops the fraction of the exact value of its argument. *)
Lemma int_truncates (x : spec_float) :
  PyFloat.int x =
  match x with
  | S754_infinity _ => Raise OverflowError
  | S754_nan => Raise ValueError
  | _ => Return (Qtruncate (PyFloat.to_Q x))
  end.
Proof.
  destruct x as [s|s| |s m e]; try reflexivity.
  unfold PyFloat.int, PyFloat.to_Q. f_equal.
  destruct (0 <=? e) eqn:He.
  - apply Z.leb_le in He. rewrite Z.shiftl_mul_pow2 by done.
    assert (Hp : 0 < Z.pos m * 2 ^ e) by (apply Z.mul_pos_pos; [lia|by apply Z.pow_pos_nonneg]).
    destruct (Z.pos m * 2 ^ e) as [|p|p] eqn:Hz; [lia| |lia].
    destruct s; unfold Qtruncate, inject_Z; simpl;
      unfold Qceiling, Qfloor; simpl; by rewrite Z.div_1_r.
  - apply Z.leb_gt in He. rewrite Z.shiftr_div_pow2 by lia.
    assert (Hp : 0 < 2 ^ (- e)) by (apply Z.pow_pos_nonneg; lia).
    destruct (2 ^ (- e)) as [|p|p] eqn:Hz; [lia| |lia].
    destruct s.
    + apply (Qtruncate_neg m p).
    + apply (Qtruncate_pos m p).
Qed.

(** Truncation is toward zero: the result is within one of the exact
    value, on the side of zero. *)
Lemma Qtruncate_bounds (q : Q) :
  ((0 <= q /\ inject_Z (Qtruncate q) <= q /\ q < inject_Z (Qtruncate q + 1)) \/
   (q < 0 /\ inject_Z (Qtruncate q - 1) < q /\ q <= inject_Z (Qtruncate q)))%Q.
Proof.
  unfold Qtruncate. destruct (Qle_bool 0 q) eqn:Hq.
  - left. apply Qle_bool_iff in Hq. split_and!; [done|apply Qfloor_le|apply Qlt_floor].
  - right. split_and!; [|apply Qceiling_lt|apply Qle_ceiling].
    apply Qnot_le_lt. intros H. apply Qle_bool_iff in H. congruence.
Qed.

Lemma lock_order_sender_first (req : TransferRequest.t) (db : Database) (s r : nat) :
  sender_row req db = Some s -> receiver_row req db = Some r -> s <> r ->
  lock_order req db = [s; r].
Proof.
  unfold sender_row, receiver_row, lock_order. intros Hs Hr Hne. run_session.
  rewrite Hs. session_simpl. rewrite Hr. session_simpl.
  unfold lock_row. simpl.
  rewrite bool_decide_eq_false_2 by (rewrite list_elem_of_singleton; congruence).
  done.
Qed.

(** The order follows the arguments: the swapped request locks the same
    two rows the other way round. *)
Lemma lock_order_swap (req : TransferRequest.t) (db : Database) (s r : nat) :
  sender_row req db = Some s -> receiver_row req db = Some r -> s <> r ->
  lock_order (swap req) db = rev (lock_order req db).
Proof.
  intros Hs Hr Hne.
  rewrite (lock_order_sender_first req db s r) by done.
  by rewrite (lock_order_sender_first (swap req) db r s).
Qed.

(** An amount that is not above zero never reaches [transfer_funds]: the
    request is answered 422, no session is opened, no row is locked and
    the database is as before. *)
Lemma non_positive_amount_rejected (utcnow : Z) (sender receiver : string)
    (amount : spec_float) (db : Database) :
  PyFloat.ltb PyFloat.zero amount = false ->
  post_transfer utcnow sender receiver amount db = (Raise RequestValidationError, db).
Proof.
  intros H. unfold post_transfer, TransferRequest.validate. by rewrite H.
Qed.

(** A committed transfer adds exactly one record, which carries the
    amount that was moved and the keys of the two wallets. *)
Lemma committed_transfer_one_record (utcnow : Z) (req : TransferRequest.t)
    (db db' : Database) (resp : TransferResponse) :
  get_db (transfer_funds utcnow req) db = (Return resp, db') ->
  exists t,
    transactions db' = transactions db ++ [t] /\
    TransferRequest.amount_cents req = Return (Transaction.amount_cents t) /\
    Transaction.id t = tx_id resp /\
    Transaction.timestamp t = utcnow.
Proof.
  intros H.
  apply transfer_funds_Return in H
    as (s & r & ws & wr & a & _ & _ & _ & _ & Ha & _ & -> & ->).
  by eexists.
Qed.

(** No record is added for a request that is answered with an error, at
    the schema or in the handler. *)
Lemma rejected_transfer_no_record (utcnow : Z) (sender receiver : string)
    (amount : spec_float) (db db' : Database) (e : Exception) :
  post_transfer utcnow sender receiver amount db = (Raise e, db') ->
  transactions db' = transactions db.
Proof. intros H. by apply post_transfer_Raise in H as ->. Qed.

(** ** Lemmas on row locks *)

Lemma step_in_order (ws ws' : list Worker) :
  step ws ws' -> Forall in_order ws -> Forall in_order ws'.
Proof.
  intros Hstep Hws. destruct Hstep as [i row rest holding Hi _|i holding Hi].
  - apply Forall_insert; [done|].
    apply (Forall_lookup_1 _ _ _ _ Hws) in Hi. simpl in *.
    by rewrite <- app_assoc.
  - by apply Forall_insert.
Qed.

Lemma awaited_rows_bounded (ws : list Worker) :
  exists bound : nat, forall i row rest holding,
    ws !! i = Some (Busy (row :: rest) holding) -> (row <= bound)%nat.
Proof.
  induction ws as [|w ws [bound IH]].
  - exists 0%nat. intros i row rest holding Hi. by destruct i.
  - destruct w as [[|row0 rest0] holding0|].
    + exists bound. intros [|i] row rest holding Hi; [done|]. by eapply IH.
    + exists (Nat.max row0 bound). intros [|i] row rest holding Hi.
      * injection Hi as -> -> ->. lia.
      * apply IH in Hi. lia.
    + exists bound. intros [|i] row rest holding Hi; [done|]. by eapply IH.
Qed.

(** With the canonical order there is no circular wait: the transaction
    that waits for the highest row waits for a transaction that waits for
    a higher one still. *)
Lemma in_order_no_circular_wait (ws : list Worker) :
  Forall in_order ws -> ~ circular_wait ws.
Proof.
  intros Hord [Hne Hwait].
  assert (Hclimb : forall n : nat, exists i row rest holding,
             ws !! i = Some (Busy (row :: rest) holding) /\ (n <= row)%nat).
  { induction n as [|n (i & row & rest & holding & Hi & Hn)].
    - destruct ws as [|w ws]; [done|].
      destruct (Hwait 0%nat w eq_refl) as (row & rest & holding & -> & _).
      exists 0%nat, row, rest, holding. split; [done|lia].
    - destruct (Hwait i _ Hi) as (row' & rest' & holding' & [= <- <- <-] & j & wj & _ & Hj & Hin).
      destruct (Hwait j wj Hj) as (rowj & restj & holdingj & -> & _).
      exists j, rowj, restj, holdingj. split; [done|].
      apply (Forall_lookup_1 _ _ _ _ Hord) in Hj. simpl in Hj, Hin.
      assert (row < rowj)%nat; [|lia].
      apply (StronglySorted_app_1_elem_of lt holdingj (rowj :: restj)); [done|done|].
      apply list_elem_of_here. }
  destruct (awaited_rows_bounded ws) as [bound Hbound].
  destruct (Hclimb (S bound)) as (i & row & rest & holding & Hi & Hrow).
  apply Hbound in Hi. lia.
Qed.

(** So transactions that all ask for their rows in the canonical order
    never come to wait for each other in a circle, however they are
    interleaved. *)
Lemma canonical_order_no_deadlock (ws ws' : list Worker) :
  Forall in_order ws -> rtc step ws ws' -> ~ circular_wait ws'.
Proof.
  intros Hord Hsteps. apply in_order_no_circular_wait.
  induction Hsteps as [|ws1 ws2 ws3 Hstep _ IH]; [done|].
  apply IH. by eapply step_in_order.
Qed.

(** ** The properties of the specification *)

(** C1, on the code.  Two transfers over the same two wallets with sender
    and receiver swapped ask for the two row locks in opposite orders,
    each in the order of its own arguments; served concurrently they reach
    a state in which each waits for the row the other holds, and from
    which no step is possible. *)
Theorem swapped_transfers_deadlock :
  lock_order (alice_to_bob dollars_10) alice_and_bob = [0; 1]%nat /\
  lock_order (bob_to_alice dollars_10) alice_and_bob = [1; 0]%nat /\
  exists ws,
    rtc step (workers alice_and_bob [alice_to_bob dollars_10; bob_to_alice dollars_10]) ws /\
    circular_wait ws /\
    forall ws', ~ step ws ws'.
Proof.
  split; [vm_compute; reflexivity|]. split; [vm_compute; reflexivity|].
  exists [Busy [1%nat] [0%nat]; Busy [0%nat] [1%nat]].
  assert (H01 : held_by_other [Busy [1%nat] [0%nat]; Busy [0%nat] [1%nat]] 0 1).
  { exists 1%nat, (Busy [0%nat] [1%nat]). split_and!; [done|done|]. simpl. set_solver. }
  assert (H10 : held_by_other [Busy [1%nat] [0%nat]; Busy [0%nat] [1%nat]] 1 0).
  { exists 0%nat, (Busy [1%nat] [0%nat]). split_and!; [done|done|]. simpl. set_solver. }
  split_and!.
  - change (workers alice_and_bob [alice_to_bob dollars_10; bob_to_alice dollars_10])
      with [Busy [0; 1]%nat []; Busy [1; 0]%nat []].
    apply rtc_l with [Busy [1%nat] [0%nat]; Busy [1; 0]%nat []].
    { apply (step_lock [Busy [0; 1]%nat []; Busy [1; 0]%nat []] 0 0 [1%nat] []); [done|].
      intros (j & w & Hj & Hw & Hin). destruct j as [|[|j]]; [done| |done].
      injection Hw as <-. by apply elem_of_nil in Hin. }
    apply rtc_once.
    apply (step_lock [Busy [1%nat] [0%nat]; Busy [1; 0]%nat []] 1 1 [0%nat] []); [done|].
    intros (j & w & Hj & Hw & Hin). destruct j as [|[|j]]; [|done|done].
    injection Hw as <-. simpl in Hin. apply list_elem_of_singleton in Hin. discriminate.
  - split; [done|]. intros i w Hw. destruct i as [|[|i]]; [| |done].
    + injection Hw as <-. by exists 1%nat, [], [0%nat].
    + injection Hw as <-. by exists 0%nat, [], [1%nat].
  - intros ws' Hstep. inversion Hstep as [i row rest holding Hi Hfree|i holding Hi]; subst.
    + destruct i as [|[|i]]; [| |done]; injection Hi as <- <- <-; by apply Hfree.
    + destruct i as [|[|i]]; done.
Qed.

(** C2 (failure no-op).  A transfer that is turned down, with 404 because
    the sender or the receiver is missing, with 400 because the sender
    lacks the funds, or with any other exception, leaves the database as
    it was before the call: the same wallets with the same balances, and a
    ledger of the same length. *)
Theorem transfer_failure_is_noop (utcnow : Z) (req : TransferRequest.t)
    (db db' : Database) (e : Exception) :
  get_db (transfer_funds utcnow req) db = (Raise e, db') ->
  db' = db /\ wallets db' = wallets db /\
  length (transactions db') = length (transactions db).
Proof.
  intros H. apply transfer_funds_Raise in H. by subst db'.
Qed.

Lemma transfer_failure_is_noop_witness :
  get_db (transfer_funds 7 (alice_to_bob (PyFloat.of_int 101))) alice_and_bob =
    (Raise (HTTPException 400 "Insufficient funds"), alice_and_bob) /\
  (alice_and_bob = alice_and_bob /\ wallets alice_and_bob = wallets alice_and_bob /\
   length (transactions alice_and_bob) = length (transactions alice_and_bob)).
Proof.
  split; [vm_compute; reflexivity|].
  apply (transfer_failure_is_noop 7 (alice_to_bob (PyFloat.of_int 101)) alice_and_bob
           alice_and_bob (HTTPException 400 "Insufficient funds")).
  vm_compute. reflexivity.
Defined.

(** C3 (conservation).  After any sequence of requests served one after
    another, transfers committed or turned down and wallets created, the
    sum of all balances is the sum before plus one creation bonus for
    every wallet that was added; after a sequence of transfers alone it is
    the sum before.  A committed transfer takes from the sender what it
    gives to the receiver. *)
Theorem conservation (rs : list Request) (ts : list (Z * string * string * spec_float))
    (db : Database) :
  total_cents (serve rs db) =
    total_cents db +
    bonus_cents * (Z.of_nat (length (wallets (serve rs db))) - Z.of_nat (length (wallets db))) /\
  total_cents (serve (transfer_request <$> ts) db) = total_cents db.
Proof.
  split; [apply serve_total_cents|].
  rewrite serve_total_cents, serve_transfers_length. lia.
Qed.

(** C4 (non-negativity).  If no balance is negative before a request,
    none is after it, whether the request creates a wallet, reads a
    balance or transfers funds. *)
Theorem non_negativity (r : Request) (db : Database) :
  non_negative db -> non_negative (snd (app r db)).
Proof. apply app_non_negative. Qed.

Lemma non_negativity_witness :
  non_negative alice_and_bob /\
  non_negative (snd (app (PostTransfer 7 "alice" "bob" dollars_10) alice_and_bob)).
Proof.
  assert (H : non_negative alice_and_bob).
  { unfold non_negative, alice_and_bob. simpl. repeat constructor; simpl; lia. }
  split; [exact H|].
  apply (non_negativity (PostTransfer 7 "alice" "bob" dollars_10) alice_and_bob H).
Defined.

(** C5, on the code.  A tenth of a cent is above zero and passes the
    schema, the amount in cents it converts to is 0, and the transfer goes
    through with that amount. *)
Theorem sub_cent_amount_moves_zero :
  PyFloat.ltb PyFloat.zero tenth_of_a_cent = true /\
  TransferRequest.validate "alice" "bob" tenth_of_a_cent =
    Some (alice_to_bob tenth_of_a_cent) /\
  TransferRequest.amount_cents (alice_to_bob tenth_of_a_cent) = Return 0 /\
  fst (post_transfer 7 "alice" "bob" tenth_of_a_cent alice_and_bob) =
    Return {| status := "success"; tx_id := 1 |}.
Proof. split_and!; vm_compute; reflexivity. Qed.

(** C6, on the code.  The transfer of a tenth of a cent is committed and
    its record is added to the ledger with the amount 0. *)
Theorem sub_cent_transfer_recorded :
  snd (post_transfer 7 "alice" "bob" tenth_of_a_cent alice_and_bob) =
  {| wallets := wallets alice_and_bob;
     transactions := [Transaction.mk 1 1 2 0 7];
     wallets_id_seq := 2;
     transactions_id_seq := 1 |}.
Proof. vm_compute. reflexivity. Qed.




(** C8 (minor units).  The amount a transfer moves is the product, in
    float arithmetic, of the amount in dollars and the scale 100, with the
    fraction cut off toward zero and not rounded: 0.29 dollars are 28
    cents.  The same scale is at the other two boundaries: the creation
    bonus is what 100 dollars convert to, and a fresh wallet reads back
    as 100 dollars. *)
Theorem amount_cents_truncates (req : TransferRequest.t) :
  let product := PyFloat.mul (TransferRequest.amount_dollars req) (PyFloat.of_int 100) in
  TransferRequest.amount_cents req =
    match product with
    | S754_infinity _ => Raise OverflowError
    | S754_nan => Raise ValueError
    | _ => Return (Qtruncate (PyFloat.to_Q product))
    end /\
  (PyFloat.to_Q (PyFloat.of_int 100) == 100)%Q /\
  TransferRequest.amount_cents (alice_to_bob (PyFloat.decimal 29 100)) = Return 28 /\
  TransferRequest.amount_cents (alice_to_bob (PyFloat.of_int 100)) = Return bonus_cents /\
  fst (get_db (get_balance "carol")
         (snd (get_db (create_wallet (WalletCreate.mk "carol")) alice_and_bob))) =
    Return (PyFloat.of_int 100).
Proof.
  split_and!.
  - unfold TransferRequest.amount_cents. apply int_truncates.
  - vm_compute. reflexivity.
  - vm_compute. reflexivity.
  - vm_compute. reflexivity.
  - vm_compute. reflexivity.
Qed.

(** C9 (self-transfer).  When the sender and the receiver are the same
    existing wallet and its balance covers the amount, the transfer is
    answered 200, every balance is as before, and exactly one record is
    added to the ledger, with the wallet's key as both [sender_id] and
    [receiver_id]. *)
Theorem self_transfer (utcnow : Z) (req : TransferRequest.t) (db : Database)
    (row : nat) (w : Wallet.t) (a : Z) :
  TransferRequest.sender_username req = TransferRequest.receiver_username req ->
  sender_row req db = Some row ->
  wallets db !! row = Some w ->
  TransferRequest.amount_cents req = Return a ->
  a <= Wallet.balance_cents w ->
  get_db (transfer_funds utcnow req) db =
  (Return {| status := "success"; tx_id := transactions_id_seq db + 1 |},
   {| wallets := wallets db;
      transactions := transactions db ++
        [Transaction.mk (transactions_id_seq db + 1) (Wallet.id w) (Wallet.id w) a utcnow];
      wallets_id_seq := wallets_id_seq db;
      transactions_id_seq := transactions_id_seq db + 1 |}).
Proof.
  intros Hname Hrow Hw Ha Hle.
  assert (Hr : receiver_row req db = Some row).
  { unfold receiver_row. rewrite <- Hname. exact Hrow. }
  rewrite transfer_funds_run. unfold transfer_result. rewrite Hrow, Hr, Hw, Ha.
  rewrite (proj2 (Z.ltb_ge _ _) Hle).
  rewrite (fits_moved row row a _ w w Hw Hw), decide_True by done.
  unfold committed. by rewrite moved_same_row.
Qed.

Lemma self_transfer_witness :
  get_db (transfer_funds 7 (TransferRequest.mk "alice" "alice" dollars_10)) alice_and_bob =
  (Return {| status := "success"; tx_id := 1 |},
   {| wallets := wallets alice_and_bob;
      transactions := [Transaction.mk 1 1 1 1000 7];
      wallets_id_seq := 2;
      transactions_id_seq := 1 |}).
Proof.
  apply (self_transfer 7 (TransferRequest.mk "alice" "alice" dollars_10) alice_and_bob
           0%nat (Wallet.mk 1 "alice" 10000) 1000).
  - reflexivity.
  - vm_compute. reflexivity.
  - reflexivity.
  - vm_compute. reflexivity.
  - vm_compute. discriminate.
Defined.

(** C10 (frame).  A committed transfer keeps the wallets table row for
    row: every wallet keeps its key and its name, and every wallet that is
    neither the sender's nor the receiver's keeps its balance. *)
Theorem transfer_frame (utcnow : Z) (req : TransferRequest.t) (db db' : Database)
    (resp : TransferResponse) :
  get_db (transfer_funds utcnow req) db = (Return resp, db') ->
  Wallet.id <$> wallets db' = Wallet.id <$> wallets db /\
  Wallet.user_name <$> wallets db' = Wallet.user_name <$> wallets db /\
  forall (i : nat) (w w' : Wallet.t),
    wallets db !! i = Some w -> wallets db' !! i = Some w' ->
    Wallet.user_name w <> TransferRequest.sender_username req ->
    Wallet.user_name w <> TransferRequest.receiver_username req ->
    Wallet.balance_cents w' = Wallet.balance_cents w.
Proof.
  intros H.
  apply transfer_funds_Return in H
    as (s & r & ws & wr & a & Hs & Hr & Hws & Hwr & _ & _ & _ & ->).
  simpl. split_and!.
  - unfold moved. by rewrite !fmap_alter_unchanged.
  - unfold moved. by rewrite !fmap_alter_unchanged.
  - intros i w w' Hw Hw' Hns Hnr.
    destruct (lookup_moved s r a (wallets db) i w Hw) as (w2 & Hw2 & _ & Hsame).
    rewrite Hw' in Hw2. injection Hw2 as <-.
    rewrite Hsame; [done| |].
    + intros ->. rewrite Hws in Hw. injection Hw as ->.
      apply Hns. by eapply first_row_same_name.
    + intros ->. rewrite Hwr in Hw. injection Hw as ->.
      apply Hnr. by eapply first_row_same_name.
Qed.

Lemma transfer_frame_witness :
  let db' := snd (get_db (transfer_funds 7 (alice_to_bob dollars_10)) alice_bob_carol) in
  Wallet.id <$> wallets db' = [1; 2; 3] /\
  Wallet.user_name <$> wallets db' = ["alice"; "bob"; "carol"]%string /\
  forall (i : nat) (w w' : Wallet.t),
    wallets alice_bob_carol !! i = Some w -> wallets db' !! i = Some w' ->
    Wallet.user_name w <> "alice"%string ->
    Wallet.user_name w <> "bob"%string ->
    Wallet.balance_cents w' = Wallet.balance_cents w.
Proof.
  apply (transfer_frame 7 (alice_to_bob dollars_10) alice_bob_carol
           (snd (get_db (transfer_funds 7 (alice_to_bob dollars_10)) alice_bob_carol))
           {| status := "success"; tx_id := 1 |}).
  vm_compute. reflexivity.
Defined.

(** ** Further properties of the code *)

Lemma first_row_names (name : string) (ws : list Wallet.t) :
  first_row (has_user_name name) ws =
  first_row (fun n => bool_decide (n = name)) (Wallet.user_name <$> ws).
Proof.
  induction ws as [|w ws IH]; [done|]. simpl. unfold has_user_name at 1.
  destruct (bool_decide (Wallet.user_name w = name)); [done|]. by rewrite IH.
Qed.

Lemma first_row_None_iff (name : string) (ws : list Wallet.t) :
  first_row (has_user_name name) ws = None <-> name ∉ Wallet.user_name <$> ws.
Proof.
  induction ws as [|w ws IH]; simpl.
  - split; [intros _; apply not_elem_of_nil|done].
  - unfold has_user_name at 1. rewrite not_elem_of_cons.
    destruct (bool_decide (Wallet.user_name w = name)) eqn:Hb.
    + apply bool_decide_eq_true in Hb. split; [done|]. intros [Hne _]. by destruct Hne.
    + apply bool_decide_eq_false in Hb.
      destruct (first_row (has_user_name name) ws) as [i|]; simpl.
      * split; [done|]. intros [_ Hn]. by apply IH in Hn.
      * split; [|done]. intros _. split; [congruence|]. by apply IH.
Qed.

Lemma first_row_app_found {A} (p : A -> bool) (rows more : list A) (i : nat) :
  first_row p rows = Some i -> first_row p (rows ++ more) = Some i.
Proof.
  revert i. induction rows as [|row rows IH]; simpl; intros i; [done|].
  destruct (p row); [done|].
  destruct (first_row p rows) as [j|]; simpl; [|done].
  intros [= <-]. by rewrite (IH j).
Qed.

Lemma first_row_app_other {A} (p : A -> bool) (rows : list A) (x : A) :
  p x = false -> first_row p (rows ++ [x]) = first_row p rows.
Proof.
  intros Hp. induction rows as [|row rows IH]; simpl.
  - by rewrite Hp.
  - destruct (p row); [done|]. by rewrite IH.
Qed.

(** X1.  [get_balance] answers 404 exactly when no wallet has the name
    and the name holds no NUL character; it fails with the driver's
    [ValueError] exactly when no wallet has the name and the name holds a
    NUL character; and whatever it answers it leaves the database as it
    was. *)
Theorem get_balance_not_found_iff (username : string) (db : Database) :
  (fst (get_db (get_balance username) db) = Raise (HTTPException 404 "User not found")
   <-> (username ∉ user_names db) /\ has_nul username = false) /\
  (fst (get_db (get_balance username) db) = Raise ValueError
   <-> (username ∉ user_names db) /\ has_nul username = true) /\
  snd (get_db (get_balance username) db) = db.
Proof.
  rewrite get_balance_run. simpl. split_and!; [| |done];
    unfold user_names; rewrite <- first_row_None_iff;
    destruct (first_row (has_user_name username) (wallets db)) as [row|] eqn:Hrow.
  - split; [|by intros [? _]].
    destruct (first_row_Some _ _ _ Hrow) as (w & -> & _).
    unfold PyFloat.float. by destruct (PyFloat.of_int (Wallet.balance_cents w)).
  - destruct (has_nul username); split; try done; by intros [_ ?].
  - split; [|by intros [? _]].
    destruct (first_row_Some _ _ _ Hrow) as (w & -> & _).
    unfold PyFloat.float. by destruct (PyFloat.of_int (Wallet.balance_cents w)).
  - destruct (has_nul username); split; try done; by intros [_ ?].
Qed.



(** X3.  Creating a wallet does not change what [get_balance] answers for
    any other name, and adds nothing to the ledger. *)
Theorem create_wallet_frame (username other : string) (db : Database) :
  other <> username ->
  let db' := snd (get_db (create_wallet (WalletCreate.mk username)) db) in
  fst (get_db (get_balance other) db') = fst (get_db (get_balance other) db) /\
  transactions db' = transactions db.
Proof.
  intros Hne. simpl. rewrite create_wallet_run. simpl.
  destruct (first_row (has_user_name username) (wallets db)) as [row|]; [done|].
  destruct (has_nul username); [done|].
  simpl. split; [|done]. rewrite !get_balance_run. simpl.
  rewrite first_row_app_other by (by apply bool_decide_eq_false; simpl).
  destruct (first_row (has_user_name other) (wallets db)) as [row|] eqn:Hrow; [|done].
  destruct (first_row_Some _ _ _ Hrow) as (w & Hw & _).
  by rewrite (lookup_app_l_Some _ _ _ _ Hw), Hw.
Qed.

Lemma create_wallet_frame_witness :
  let db' := snd (get_db (create_wallet (WalletCreate.mk "carol")) alice_and_bob) in
  fst (get_db (get_balance "bob") db') = fst (get_db (get_balance "bob") alice_and_bob) /\
  transactions db' = transactions alice_and_bob.
Proof.
  apply (create_wallet_frame "carol" "bob" alice_and_bob). discriminate.
Defined.

Lemma first_row_moved (name : string) (s r : nat) (a : Z) (l : list Wallet.t) :
  first_row (has_user_name name) (moved s r a l) = first_row (has_user_name name) l.
Proof.
  rewrite !first_row_names. unfold moved. by rewrite !fmap_alter_unchanged.
Qed.

Lemma lookup_moved_sender (s r : nat) (a : Z) (l : list Wallet.t) (ws : Wallet.t) :
  s <> r -> l !! s = Some ws -> moved s r a l !! s = Some (debit a ws).
Proof.
  intros Hne Hs. unfold moved.
  rewrite list_lookup_alter_ne by done. by rewrite list_lookup_alter_eq, Hs.
Qed.

Lemma lookup_moved_receiver (s r : nat) (a : Z) (l : list Wallet.t) (wr : Wallet.t) :
  s <> r -> l !! r = Some wr -> moved s r a l !! r = Some (credit a wr).
Proof.
  intros Hne Hr. unfold moved.
  rewrite list_lookup_alter_eq, list_lookup_alter_ne by done. by rewrite Hr.
Qed.

Lemma rows_differ (req : TransferRequest.t) (db : Database) (s r : nat) :
  TransferRequest.sender_username req <> TransferRequest.receiver_username req ->
  sender_row req db = Some s -> receiver_row req db = Some r -> s <> r.
Proof.
  intros Hne Hs Hr ->.
  destruct (first_row_Some _ _ _ Hs) as (w & Hw & _).
  apply Hne. rewrite <- (first_row_same_name _ _ _ _ Hs Hw).
  apply (first_row_same_name _ _ _ _ Hr Hw).
Qed.

(** X4.  A committed transfer between two different names takes exactly
    the amount in cents from the sender's balance, which covered it, and
    adds exactly that amount to the receiver's. *)
Theorem transfer_moves_amount (utcnow : Z) (req : TransferRequest.t) (db db' : Database)
    (resp : TransferResponse) :
  get_db (transfer_funds utcnow req) db = (Return resp, db') ->
  TransferRequest.sender_username req <> TransferRequest.receiver_username req ->
  exists a before_s before_r,
    TransferRequest.amount_cents req = Return a /\
    cents_of (TransferRequest.sender_username req) db = Some before_s /\
    cents_of (TransferRequest.receiver_username req) db = Some before_r /\
    a <= before_s /\
    cents_of (TransferRequest.sender_username req) db' = Some (before_s - a) /\
    cents_of (TransferRequest.receiver_username req) db' = Some (before_r + a).
Proof.
  intros H Hne.
  apply transfer_funds_Return in H
    as (s & r & ws & wr & a & Hs & Hr & Hws & Hwr & Ha & Hle & _ & ->).
  pose proof (rows_differ req db s r Hne Hs Hr) as Hsr.
  exists a, (Wallet.balance_cents ws), (Wallet.balance_cents wr).
  unfold cents_of, sender_row, receiver_row in *. simpl.
  rewrite !first_row_moved, Hs, Hr, Hws, Hwr.
  rewrite (lookup_moved_sender s r a _ ws Hsr Hws).
  rewrite (lookup_moved_receiver s r a _ wr Hsr Hwr).
  by split_and!.
Qed.

Lemma transfer_moves_amount_witness :
  exists a before_s before_r,
    TransferRequest.amount_cents (alice_to_bob dollars_10) = Return a /\
    cents_of "alice" alice_and_bob = Some before_s /\
    cents_of "bob" alice_and_bob = Some before_r /\
    a <= before_s /\
    cents_of "alice" (snd (get_db (transfer_funds 7 (alice_to_bob dollars_10)) alice_and_bob))
      = Some (before_s - a) /\
    cents_of "bob" (snd (get_db (transfer_funds 7 (alice_to_bob dollars_10)) alice_and_bob))
      = Some (before_r + a).
Proof.
  apply (transfer_moves_amount 7 (alice_to_bob dollars_10) alice_and_bob
           (snd (get_db (transfer_funds 7 (alice_to_bob dollars_10)) alice_and_bob))
           {| status := "success"; tx_id := 1 |}).
  - vm_compute. reflexivity.
  - discriminate.
Defined.

Lemma amount_cents_not_http (req : TransferRequest.t) (code : Z) (detail : string) :
  TransferRequest.amount_cents req <> Raise (HTTPException code detail).
Proof.
  unfold TransferRequest.amount_cents, PyFloat.int.
  by destruct (PyFloat.mul _ _).
Qed.

(** X5.  A transfer is answered 404 exactly when the sender's or the
    receiver's name has no wallet and neither lookup is refused, whatever
    the amount: the two lookups come before the amount is converted or
    compared.  It fails with [ValueError] exactly when a name without a
    wallet holds a NUL character, so that its lookup is refused, or when
    both wallets exist and the conversion of the amount raises it. *)
Theorem transfer_not_found_iff (utcnow : Z) (req : TransferRequest.t) (db : Database) :
  let sender := TransferRequest.sender_username req in
  let receiver := TransferRequest.receiver_username req in
  (fst (get_db (transfer_funds utcnow req) db) =
     Raise (HTTPException 404 "One or more users not found")
   <-> ((sender ∉ user_names db) \/ (receiver ∉ user_names db)) /\
       ~ refused sender db /\ ~ refused receiver db) /\
  (fst (get_db (transfer_funds utcnow req) db) = Raise ValueError
   <-> refused sender db \/ refused receiver db \/
       ((sender ∈ user_names db) /\ (receiver ∈ user_names db) /\
        TransferRequest.amount_cents req = Raise ValueError)).
Proof.
  simpl. unfold refused, user_names.
  assert (Hin : forall name, name ∈ Wallet.user_name <$> wallets db <->
            first_row (has_user_name name) (wallets db) <> None).
  { intros name. rewrite first_row_None_iff.
    split; [tauto|]. intros H. by destruct (decide (name ∈ Wallet.user_name <$> wallets db)). }
  rewrite <- !first_row_None_iff, !Hin.
  rewrite transfer_funds_run. unfold transfer_result, sender_row, receiver_row.
  destruct (first_row (has_user_name (TransferRequest.sender_username req)) (wallets db))
    as [s|] eqn:Hs;
  destruct (first_row (has_user_name (TransferRequest.receiver_username req)) (wallets db))
    as [r|] eqn:Hr.
  - destruct (first_row_Some _ _ _ Hs) as (ws & -> & _).
    destruct (first_row_Some _ _ _ Hr) as (wr & -> & _).
    split.
    + split; [|by intros [[|] _]].
      destruct (TransferRequest.amount_cents req) as [a|e] eqn:Ha; simpl.
      * destruct (_ <? _); [done|]. by destruct (fits _ _).
      * intros [= ->]. by apply amount_cents_not_http in Ha.
    + destruct (TransferRequest.amount_cents req) as [a|e] eqn:Ha; simpl.
      * split; [destruct (_ <? _); [done|]; by destruct (fits _ _)|].
        intros [[? _]|[[? _]|(_ & _ & ?)]]; done.
      * split; [intros [= ->]; by right; right|].
        intros [[? _]|[[? _]|(_ & _ & ?)]]; [done|done|congruence].
  - destruct (has_nul (TransferRequest.receiver_username req)); simpl; intuition congruence.
  - destruct (has_nul (TransferRequest.sender_username req)); simpl; intuition congruence.
  - destruct (has_nul (TransferRequest.sender_username req)),
             (has_nul (TransferRequest.receiver_username req)); simpl; intuition congruence.
Qed.

Lemma cents_of_Some (username : string) (db : Database) (b : Z) :
  cents_of username db = Some b ->
  exists row w, first_row (has_user_name username) (wallets db) = Some row /\
                wallets db !! row = Some w /\ Wallet.balance_cents w = b.
Proof.
  unfold cents_of.
  destruct (first_row _ (wallets db)) as [row|]; [|done].
  destruct (wallets db !! row) as [w|] eqn:Hw; [|done].
  intros [= <-]. by exists row, w.
Qed.

Lemma first_row_elem_of (name : string) (ws : list Wallet.t) :
  name ∈ Wallet.user_name <$> ws ->
  exists row w, first_row (has_user_name name) ws = Some row /\ ws !! row = Some w.
Proof.
  intros Hin. destruct (first_row (has_user_name name) ws) as [row|] eqn:Hrow.
  - destruct (first_row_Some _ _ _ Hrow) as (w & Hw & _). by exists row, w.
  - by apply first_row_None_iff in Hrow.
Qed.



(** X7.  An amount so large that its product with 100 is no longer a
    finite float is not answered 400: with both wallets present the
    conversion raises [OverflowError], and the database stays as it was. *)
Theorem transfer_amount_overflow (utcnow : Z) (req : TransferRequest.t) (db : Database)
    (sign : bool) :
  TransferRequest.sender_username req ∈ user_names db ->
  TransferRequest.receiver_username req ∈ user_names db ->
  PyFloat.mul (TransferRequest.amount_dollars req) PyFloat.hundred = S754_infinity sign ->
  get_db (transfer_funds utcnow req) db = (Raise OverflowError, db).
Proof.
  intros Hs Hr Hinf.
  apply first_row_elem_of in Hs as (s & ws & Hs & Hws).
  apply first_row_elem_of in Hr as (r & wr & Hr & Hwr).
  rewrite transfer_funds_run. unfold transfer_result, sender_row, receiver_row.
  rewrite Hs, Hr, Hws, Hwr. unfold TransferRequest.amount_cents. by rewrite Hinf.
Qed.

Lemma transfer_amount_overflow_witness :
  TransferRequest.validate "alice" "bob" largest_float = Some (alice_to_bob largest_float) /\
  get_db (transfer_funds 7 (alice_to_bob largest_float)) alice_and_bob =
    (Raise OverflowError, alice_and_bob).
Proof.
  split; [reflexivity|].
  apply (transfer_amount_overflow 7 (alice_to_bob largest_float) alice_and_bob false).
  - vm_compute. apply list_elem_of_here.
  - vm_compute. apply list_elem_of_further, list_elem_of_here.
  - vm_compute. reflexivity.
Defined.

Lemma shr_1_nonneg (mrs : shr_record) : 0 <= shr_m mrs -> 0 <= shr_m (shr_1 mrs).
Proof. destruct mrs as [[|[p|p|]|[p|p|]] r s]; simpl; lia. Qed.

Lemma iter_pos_shr_1_nonneg (p : positive) (mrs : shr_record) :
  0 <= shr_m mrs -> 0 <= shr_m (SpecFloat.iter_pos shr_1 p mrs).
Proof.
  revert mrs. induction p as [p IH|p IH|]; intros mrs H; simpl.
  - by apply IH, IH, shr_1_nonneg.
  - by apply IH, IH.
  - by apply shr_1_nonneg.
Qed.

Lemma shr_fexp_nonneg (m e : Z) (l : location) :
  0 <= m -> 0 <= shr_m (fst (shr_fexp PyFloat.prec PyFloat.emax m e l)).
Proof.
  intros Hm. unfold shr_fexp, shr.
  assert (H : 0 <= shr_m (shr_record_of_loc m l)) by (by destruct l as [|[]]).
  destruct (_ - e); simpl; [done| |done]. by apply iter_pos_shr_1_nonneg.
Qed.

Lemma round_nearest_even_nonneg (m : Z) (l : location) :
  0 <= m -> 0 <= round_nearest_even m l.
Proof. intros Hm. destruct l as [|[]]; simpl; try destruct (Z.even m); lia. Qed.

(** Rounding a mantissa that is not negative never gives a NaN. *)
Lemma binary_round_aux_not_nan (sx : bool) (mx ex : Z) (lx : location) :
  0 <= mx -> binary_round_aux PyFloat.prec PyFloat.emax sx mx ex lx <> S754_nan.
Proof.
  intros Hm. unfold binary_round_aux.
  pose proof (shr_fexp_nonneg mx ex lx Hm) as H1.
  destruct (shr_fexp _ _ mx ex lx) as [mrs' e']. simpl in H1.
  pose proof (shr_fexp_nonneg _ e' loc_Exact
                (round_nearest_even_nonneg _ (loc_of_shr_record mrs') H1)) as H2.
  destruct (shr_fexp _ _ _ e' loc_Exact) as [mrs'' e'']. simpl in H2.
  destruct (shr_m mrs''); [done| |lia]. by destruct (_ <=? _).
Qed.

(** X8.  For a request that passed the schema, the amount in cents is a
    non-negative integer, or the conversion raises [OverflowError]: it is
    never negative and never a [ValueError]. *)
Theorem validated_amount_cents (sender receiver : string) (amount : spec_float)
    (req : TransferRequest.t) :
  TransferRequest.validate sender receiver amount = Some req ->
  (exists a, TransferRequest.amount_cents req = Return a /\ 0 <= a) \/
  TransferRequest.amount_cents req = Raise OverflowError.
Proof.
  intros Hv.
  destruct (TransferRequest.amount_cents req) as [a|e] eqn:Ha.
  - left. exists a. split; [done|]. by eapply amount_cents_nonneg.
  - right. revert Hv Ha. unfold TransferRequest.validate, TransferRequest.amount_cents.
    destruct (PyFloat.ltb PyFloat.zero amount) eqn:Hgt; [|discriminate].
    intros [= <-]. simpl. rewrite hundred_eq. unfold PyFloat.mul.
    destruct amount as [s|s| |s m e']; try discriminate.
    + simpl. by intros [= <-].
    + unfold SFmul.
      pose proof (binary_round_aux_not_nan (xorb s false) (Z.pos (m * 7036874417766400))
                    (e' + -46) loc_Exact) as Hnan.
      destruct (binary_round_aux _ _ _ _ _ _) as [s'|s'| |s' m' e'']; simpl.
      * discriminate.
      * by intros [= <-].
      * by destruct Hnan.
      * discriminate.
Qed.

Lemma validated_amount_cents_witness :
  (exists a, TransferRequest.amount_cents (alice_to_bob tenth_of_a_cent) = Return a /\ 0 <= a) \/
  TransferRequest.amount_cents (alice_to_bob tenth_of_a_cent) = Raise OverflowError.
Proof.
  apply (validated_amount_cents "alice" "bob" tenth_of_a_cent (alice_to_bob tenth_of_a_cent)).
  vm_compute. reflexivity.
Defined.

Lemma moved_zero (s r : nat) (l : list Wallet.t) : moved s r 0 l = l.
Proof.
  unfold moved. rewrite !list_alter_id; [done| |].
  - intros [k n b]. unfold debit. simpl. f_equal. lia.
  - intros [k n b]. unfold credit. simpl. f_equal. lia.
Qed.

(** X9.  A transfer whose amount converts to 0 cents, between two
    existing wallets of a database without negative balances, is answered
    200: it changes no balance and still adds a record, of amount 0, to
    the ledger. *)
Theorem zero_cent_transfer (utcnow : Z) (req : TransferRequest.t) (db : Database) :
  non_negative db ->
  TransferRequest.sender_username req ∈ user_names db ->
  TransferRequest.receiver_username req ∈ user_names db ->
  TransferRequest.amount_cents req = Return 0 ->
  exists t,
    get_db (transfer_funds utcnow req) db =
      (Return {| status := "success"; tx_id := transactions_id_seq db + 1 |},
       {| wallets := wallets db;
          transactions := transactions db ++ [t];
          wallets_id_seq := wallets_id_seq db;
          transactions_id_seq := transactions_id_seq db + 1 |}) /\
    Transaction.amount_cents t = 0.
Proof.
  intros Hnn Hs Hr Ha.
  apply first_row_elem_of in Hs as (s & ws & Hs & Hws).
  apply first_row_elem_of in Hr as (r & wr & Hr & Hwr).
  rewrite transfer_funds_run. unfold transfer_result, sender_row, receiver_row.
  rewrite Hs, Hr, Hws, Hwr, Ha.
  pose proof (Forall_lookup_1 _ _ _ _ Hnn Hws) as Hb. simpl in Hb.
  rewrite (proj2 (Z.ltb_ge _ _) Hb), moved_zero, fits_refl.
  eexists. unfold committed. rewrite moved_zero. split; reflexivity.
Qed.

Lemma zero_cent_transfer_witness :
  exists t,
    get_db (transfer_funds 7 (alice_to_bob tenth_of_a_cent)) alice_and_bob =
      (Return {| status := "success"; tx_id := 1 |},
       {| wallets := wallets alice_and_bob;
          transactions := [t];
          wallets_id_seq := 2;
          transactions_id_seq := 1 |}) /\
    Transaction.amount_cents t = 0.
Proof.
  apply (zero_cent_transfer 7 (alice_to_bob tenth_of_a_cent) alice_and_bob).
  - unfold non_negative, alice_and_bob. simpl. repeat constructor; simpl; lia.
  - vm_compute. apply list_elem_of_here.
  - vm_compute. apply list_elem_of_further, list_elem_of_here.
  - vm_compute. reflexivity.
Defined.

(** What a request can do to the database: nothing, add one wallet under
    a fresh name, or commit one transfer that the sender's balance
    covers. *)
Lemma app_cases (r : Request) (db : Database) :
  snd (app r db) = db \/
  (exists username,
     (username ∉ user_names db) /\
     snd (app r db) =
       {| wallets := wallets db ++ [Wallet.mk (wallets_id_seq db + 1) username bonus_cents];
          transactions := transactions db;
          wallets_id_seq := wallets_id_seq db + 1;
          transactions_id_seq := transactions_id_seq db |}) \/
  (exists utcnow s r' ws wr a,
     wallets db !! s = Some ws /\ wallets db !! r' = Some wr /\
     0 <= a <= Wallet.balance_cents ws /\
     snd (app r db) = committed utcnow s r' (Wallet.id ws) (Wallet.id wr) a db).
Proof.
  destruct r as [username|username|utcnow sender receiver amount]; simpl.
  - rewrite create_wallet_run.
    destruct (first_row _ (wallets db)) eqn:Hrow; simpl; [by left|].
    destruct (has_nul username); simpl; [by left|].
    right; left. exists username. split; [|done]. by apply first_row_None_iff.
  - rewrite get_balance_run. by left.
  - destruct (post_transfer utcnow sender receiver amount db) as [[resp|e] db'] eqn:Hp; simpl.
    + right; right. unfold post_transfer in Hp.
      destruct (TransferRequest.validate sender receiver amount) as [req|] eqn:Hv;
        [|discriminate].
      apply transfer_funds_Return in Hp
        as (s & r & ws & wr & a & _ & _ & Hws & Hwr & Ha & Hle & _ & ->).
      exists utcnow, s, r, ws, wr, a. split_and!; try done.
      by eapply amount_cents_nonneg.
    + left. by apply post_transfer_Raise in Hp.
Qed.

Lemma wallet_ids_committed (utcnow : Z) (s r : nat) (ks kr a : Z) (db : Database) :
  wallet_ids (committed utcnow s r ks kr a db) = wallet_ids db.
Proof. unfold wallet_ids, committed, moved. simpl. by rewrite !fmap_alter_unchanged. Qed.

Lemma user_names_committed (utcnow : Z) (s r : nat) (ks kr a : Z) (db : Database) :
  user_names (committed utcnow s r ks kr a db) = user_names db.
Proof. unfold user_names, committed, moved. simpl. by rewrite !fmap_alter_unchanged. Qed.

Lemma app_unique_names (r : Request) (db : Database) :
  unique_names db -> unique_names (snd (app r db)).
Proof.
  intros Hdb. destruct (app_cases r db) as [-> | [(u & Hu & ->) | H]]; [done| |].
  - unfold unique_names, user_names in *. simpl. rewrite fmap_app. simpl.
    apply NoDup_app. split_and!; [done| |apply NoDup_singleton].
    intros x Hx Hin. apply list_elem_of_singleton in Hin. by subst x.
  - destruct H as (utcnow & s & r' & ws & wr & a & _ & _ & _ & ->).
    unfold unique_names. by rewrite user_names_committed.
Qed.

Lemma fresh_key (k : Z) (keys : list Z) :
  Forall (fun x => x <= k) keys -> NoDup keys ->
  NoDup (keys ++ [k + 1]) /\ Forall (fun x => x <= k + 1) (keys ++ [k + 1]).
Proof.
  intros Hle Hnd. split.
  - apply NoDup_app. split_and!; [done| |apply NoDup_singleton].
    intros x Hx Hin. apply list_elem_of_singleton in Hin. subst x.
    rewrite Forall_forall in Hle. apply Hle in Hx. lia.
  - apply Forall_app. split; [|by repeat constructor].
    eapply Forall_impl; [done|]. simpl. intros; lia.
Qed.

Lemma app_primary_keys (r : Request) (db : Database) :
  primary_keys db -> primary_keys (snd (app r db)).
Proof.
  intros (Hw1 & Hw2 & Ht1 & Ht2).
  destruct (app_cases r db) as [-> | [(u & Hu & ->) | H]]; [done| |].
  - unfold primary_keys, wallet_ids, transaction_ids in *. simpl.
    rewrite fmap_app. simpl.
    destruct (fresh_key _ _ Hw2 Hw1). by split_and!.
  - destruct H as (utcnow & s & r' & ws & wr & a & _ & _ & _ & ->).
    unfold primary_keys. rewrite wallet_ids_committed.
    unfold transaction_ids in *. simpl. rewrite fmap_app. simpl.
    destruct (fresh_key _ _ Ht2 Ht1). by split_and!.
Qed.

Lemma app_foreign_keys (r : Request) (db : Database) :
  foreign_keys db -> foreign_keys (snd (app r db)).
Proof.
  intros Hdb. destruct (app_cases r db) as [-> | [(u & Hu & ->) | H]]; [done| |].
  - unfold foreign_keys, wallet_ids in *. simpl. rewrite fmap_app.
    eapply Forall_impl; [done|]. simpl. intros t [Hs Hr].
    split; apply elem_of_app; by left.
  - destruct H as (utcnow & s & r' & ws & wr & a & Hws & Hwr & _ & ->).
    unfold foreign_keys. rewrite wallet_ids_committed. simpl.
    apply Forall_app. split; [done|]. repeat constructor; simpl.
    + apply list_elem_of_fmap. exists ws. split; [done|]. by eapply list_elem_of_lookup_2.
    + apply list_elem_of_fmap. exists wr. split; [done|]. by eapply list_elem_of_lookup_2.
Qed.

Lemma app_prefixes (r : Request) (db : Database) :
  transactions db `prefix_of` transactions (snd (app r db)) /\
  wallet_ids db `prefix_of` wallet_ids (snd (app r db)) /\
  user_names db `prefix_of` user_names (snd (app r db)).
Proof.
  destruct (app_cases r db) as [-> | [(u & Hu & ->) | H]]; [done| |].
  - unfold wallet_ids, user_names. simpl. rewrite !fmap_app.
    split_and!; [done|by apply prefix_app_r|by apply prefix_app_r].
  - destruct H as (utcnow & s & r' & ws & wr & a & _ & _ & _ & ->).
    rewrite wallet_ids_committed, user_names_committed. simpl.
    split_and!; [by apply prefix_app_r|done|done].
Qed.

(** X10.  No request sequence gives two wallets the same name: names that
    are distinct stay distinct, because [create_wallet] only adds a name
    it did not find. *)
Theorem serve_unique_names (rs : list Request) (db : Database) :
  unique_names db -> unique_names (serve rs db).
Proof.
  revert db. induction rs as [|r rs IH]; intros db Hdb; [done|].
  rewrite serve_cons. by apply IH, app_unique_names.
Qed.

Lemma serve_unique_names_witness : unique_names (serve sample_requests alice_and_bob).
Proof.
  apply (serve_unique_names sample_requests alice_and_bob).
  unfold unique_names, user_names, alice_and_bob. simpl.
  apply NoDup_cons. split.
  - intros H. apply list_elem_of_singleton in H. discriminate.
  - apply NoDup_singleton.
Defined.

(** X11.  The primary keys stay sound under any request sequence: in
    both tables the keys are distinct and none exceeds its sequence, so
    every new wallet and every new record gets a key that was never
    used. *)
Theorem serve_primary_keys (rs : list Request) (db : Database) :
  primary_keys db -> primary_keys (serve rs db).
Proof.
  revert db. induction rs as [|r rs IH]; intros db Hdb; [done|].
  rewrite serve_cons. by apply IH, app_primary_keys.
Qed.

Lemma serve_primary_keys_witness : primary_keys (serve sample_requests alice_and_bob).
Proof.
  apply (serve_primary_keys sample_requests alice_and_bob).
  unfold primary_keys, wallet_ids, transaction_ids, alice_and_bob. simpl.
  split_and!.
  - apply NoDup_cons. split; [|apply NoDup_singleton].
    intros H. apply list_elem_of_singleton in H. discriminate.
  - repeat constructor; lia.
  - apply NoDup_nil_2.
  - constructor.
Defined.

(** X12.  The ledger's references stay valid under any request sequence:
    the [sender_id] and [receiver_id] of every record are keys of wallets
    in the table. *)
Theorem serve_foreign_keys (rs : list Request) (db : Database) :
  foreign_keys db -> foreign_keys (serve rs db).
Proof.
  revert db. induction rs as [|r rs IH]; intros db Hdb; [done|].
  rewrite serve_cons. by apply IH, app_foreign_keys.
Qed.

Lemma serve_foreign_keys_witness : foreign_keys (serve sample_requests alice_and_bob).
Proof.
  apply (serve_foreign_keys sample_requests alice_and_bob).
  unfold foreign_keys, alice_and_bob. simpl. constructor.
Defined.

(** X13.  The ledger is append-only and wallets are never removed,
    renamed or given another key: after any request sequence the old
    ledger is a prefix of the new one, record for record, and the old
    lists of wallet keys and names are prefixes of the new ones. *)
Theorem serve_append_only (rs : list Request) (db : Database) :
  transactions db `prefix_of` transactions (serve rs db) /\
  wallet_ids db `prefix_of` wallet_ids (serve rs db) /\
  user_names db `prefix_of` user_names (serve rs db).
Proof.
  revert db. induction rs as [|r rs IH]; intros db; [done|].
  rewrite serve_cons.
  destruct (app_prefixes r db) as (H1 & H2 & H3).
  destruct (IH (snd (app r db))) as (H1' & H2' & H3').
  split_and!; by etrans.
Qed.

(** One transfer that the sender's balance covers, seen through the
    balances of the two names. *)
Lemma post_transfer_commit (utcnow : Z) (sender receiver : string) (amount : spec_float)
    (req : TransferRequest.t) (a before_s before_r : Z) (db : Database) :
  TransferRequest.validate sender receiver amount = Some req ->
  TransferRequest.amount_cents req = Return a ->
  sender <> receiver ->
  cents_of sender db = Some before_s ->
  cents_of receiver db = Some before_r ->
  in_range before_s = true -> in_range before_r = true ->
  a <= before_s ->
  before_r + a <= 2147483647 ->
  exists t,
    cents_of sender (snd (post_transfer utcnow sender receiver amount db)) =
      Some (before_s - a) /\
    cents_of receiver (snd (post_transfer utcnow sender receiver amount db)) =
      Some (before_r + a) /\
    transactions (snd (post_transfer utcnow sender receiver amount db)) =
      transactions db ++ [t] /\
    Transaction.amount_cents t = a.
Proof.
  intros Hv Ha Hne Hs Hr Hins Hinr Hle Hmax. unfold post_transfer. rewrite Hv.
  pose proof (amount_cents_nonneg _ _ _ _ _ Hv Ha) as Hpos.
  assert (Hreq : TransferRequest.sender_username req = sender /\
                 TransferRequest.receiver_username req = receiver).
  { unfold TransferRequest.validate in Hv. destruct (PyFloat.ltb _ _); [|discriminate].
    by injection Hv as <-. }
  destruct Hreq as [Hsn Hrn].
  apply cents_of_Some in Hs as (s & ws & Hs & Hws & <-).
  apply cents_of_Some in Hr as (r & wr & Hr & Hwr & <-).
  assert (Hsr : s <> r).
  { apply (rows_differ req db); unfold sender_row, receiver_row; congruence. }
  rewrite transfer_funds_run. unfold transfer_result, sender_row, receiver_row.
  rewrite Hsn, Hrn, Hs, Hr, Hws, Hwr, Ha, (proj2 (Z.ltb_ge _ _) Hle).
  rewrite (fits_moved s r a _ ws wr Hws Hwr), decide_False by done.
  apply in_range_iff in Hins, Hinr.
  rewrite (row_fits_in_range ws (debit a ws)), (row_fits_in_range wr (credit a wr))
    by (rewrite ?in_range_iff; simpl; lia).
  simpl. eexists. unfold cents_of. simpl. rewrite !first_row_moved, Hs, Hr.
  rewrite (lookup_moved_sender s r a _ ws Hsr Hws).
  rewrite (lookup_moved_receiver s r a _ wr Hsr Hwr).
  by split_and!.
Qed.

(** The same transfer posted again and again while the balance covers it. *)
Lemma repeated_transfers_run (times : list Z) (sender receiver : string)
    (amount : spec_float) (req : TransferRequest.t) (a before_s before_r : Z)
    (db : Database) :
  TransferRequest.validate sender receiver amount = Some req ->
  TransferRequest.amount_cents req = Return a ->
  sender <> receiver ->
  cents_of sender db = Some before_s ->
  cents_of receiver db = Some before_r ->
  in_range before_s = true -> in_range before_r = true ->
  Z.of_nat (length times) * a <= before_s ->
  before_r + Z.of_nat (length times) * a <= 2147483647 ->
  let db' := serve ((fun t => PostTransfer t sender receiver amount) <$> times) db in
  cents_of sender db' = Some (before_s - Z.of_nat (length times) * a) /\
  cents_of receiver db' = Some (before_r + Z.of_nat (length times) * a) /\
  exists records,
    transactions db' = transactions db ++ records /\
    length records = length times /\
    Forall (fun t => Transaction.amount_cents t = a) records.
Proof.
  intros Hv Ha Hne. simpl.
  pose proof (amount_cents_nonneg _ _ _ _ _ Hv Ha) as Hpos.
  revert db before_s before_r.
  induction times as [|t times IH];
    intros db before_s before_r Hs Hr Hins Hinr Hle Hmax.
  - simpl. rewrite Z.sub_0_r, Z.add_0_r. split_and!; [done|done|].
    exists []. by rewrite app_nil_r.
  - rewrite fmap_cons, serve_cons. simpl.
    rewrite length_cons, Nat2Z.inj_succ in *.
    destruct (post_transfer_commit t sender receiver amount req a before_s before_r db)
      as (rec & Hs1 & Hr1 & Ht1 & Hrec); try done; [nia|nia|].
    destruct (post_transfer t sender receiver amount db) as [result db1]. simpl in *.
    apply in_range_iff in Hins, Hinr.
    destruct (IH db1 (before_s - a) (before_r + a)) as (Hs2 & Hr2 & recs & Ht2 & Hlen & Hall);
      [done|done|apply in_range_iff; nia|apply in_range_iff; nia|nia|nia|].
    split_and!.
    + rewrite Hs2. f_equal. lia.
    + rewrite Hr2. f_equal. lia.
    + exists (rec :: recs). rewrite Ht2, Ht1, <- app_assoc. simpl.
      split_and!; [done|by rewrite Hlen|by constructor].
Qed.

(** X14.  The same transfer posted [n] times in a row, between two
    wallets whose balances the columns hold, with a sender's balance that
    covers [n] times the amount and a receiver's balance that stays
    within the 32-bit range of the column when [n] times the amount is
    added, commits every time: the sender ends with [n] times the amount
    less, the receiver with [n] times the amount more, and the ledger has
    [n] new records, each of that amount. *)
Theorem repeated_transfers (times : list Z) (sender receiver : string)
    (amount : spec_float) (req : TransferRequest.t) (a before_s before_r : Z)
    (db : Database) :
  TransferRequest.validate sender receiver amount = Some req ->
  TransferRequest.amount_cents req = Return a ->
  sender <> receiver ->
  cents_of sender db = Some before_s ->
  cents_of receiver db = Some before_r ->
  in_range before_s = true -> in_range before_r = true ->
  Z.of_nat (length times) * a <= before_s ->
  before_r + Z.of_nat (length times) * a <= 2147483647 ->
  let db' := serve ((fun t => PostTransfer t sender receiver amount) <$> times) db in
  cents_of sender db' = Some (before_s - Z.of_nat (length times) * a) /\
  cents_of receiver db' = Some (before_r + Z.of_nat (length times) * a) /\
  exists records,
    transactions db' = transactions db ++ records /\
    length records = length times /\
    Forall (fun t => Transaction.amount_cents t = a) records.
Proof. apply repeated_transfers_run. Qed.

Lemma repeated_transfers_witness :
  let db' := serve ((fun t => PostTransfer t "alice" "bob" dollars_10) <$> [1; 2; 3; 4; 5])
               alice_and_bob in
  cents_of "alice" db' = Some (10000 - 5 * 1000) /\
  cents_of "bob" db' = Some (10000 + 5 * 1000) /\
  exists records,
    transactions db' = transactions alice_and_bob ++ records /\
    length records = 5%nat /\
    Forall (fun t => Transaction.amount_cents t = 1000) records.
Proof.
  apply (repeated_transfers [1; 2; 3; 4; 5] "alice" "bob" dollars_10
           (alice_to_bob dollars_10) 1000 10000 10000 alice_and_bob).
  - reflexivity.
  - vm_compute. reflexivity.
  - discriminate.
  - reflexivity.
  - reflexivity.
  - reflexivity.
  - reflexivity.
  - vm_compute. discriminate.
  - vm_compute. discriminate.
Defined.

Lemma balance_of_cents (username : string) (db : Database) :
  balance_of username db =
  match cents_of username db with
  | Some b =>
      match PyFloat.float b with
      | Return f => Some (PyFloat.div f PyFloat.hundred)
      | Raise _ => None
      end
  | None => None
  end.
Proof.
  unfold balance_of, cents_of. rewrite get_balance_run. simpl.
  destruct (first_row _ (wallets db)) as [row|]; [|by destruct (has_nul username)].
  destruct (wallets db !! row) as [w|]; simpl; [|done].
  by destruct (PyFloat.float (Wallet.balance_cents w)).
Qed.

Lemma create_existing (username : string) (db : Database) :
  username ∈ user_names db -> snd (app (PostCreateWallet username) db) = db.
Proof.
  intros Hin. simpl. rewrite create_wallet_run. simpl.
  apply first_row_elem_of in Hin as (row & w & -> & _). done.
Qed.

Lemma create_fresh (username : string) (db : Database) :
  username ∉ user_names db ->
  has_nul username = false ->
  snd (app (PostCreateWallet username) db) =
  {| wallets := wallets db ++ [Wallet.mk (wallets_id_seq db + 1) username bonus_cents];
     transactions := transactions db;
     wallets_id_seq := wallets_id_seq db + 1;
     transactions_id_seq := transactions_id_seq db |}.
Proof.
  intros Hin Hnul. simpl. rewrite create_wallet_run. simpl.
  unfold user_names in Hin. apply first_row_None_iff in Hin. by rewrite Hin, Hnul.
Qed.

(** The five requests of the threads, on a database that has both
    wallets and enough on alice's. *)
Lemma five_transfers (utcnow : nat -> Z) (db : Database) (before_a before_b : Z) :
  cents_of "alice" db = Some before_a ->
  cents_of "bob" db = Some before_b ->
  in_range before_a = true -> in_range before_b = true ->
  5000 <= before_a ->
  before_b + 5000 <= 2147483647 ->
  let db' := serve ((fun i => make_transfer (utcnow i)) <$> seq 0 5) db in
  cents_of "alice" db' = Some (before_a - 5000) /\
  cents_of "bob" db' = Some (before_b + 5000) /\
  length (transactions db') = (length (transactions db) + 5)%nat.
Proof.
  intros Ha Hb Hina Hinb Hle Hmax.
  assert (Hv : TransferRequest.validate "alice" "bob" (PyFloat.of_int 10) =
               Some (alice_to_bob (PyFloat.of_int 10))) by (vm_compute; reflexivity).
  assert (Hc : TransferRequest.amount_cents (alice_to_bob (PyFloat.of_int 10)) = Return 1000)
    by (vm_compute; reflexivity).
  assert (Hne : "alice"%string <> "bob"%string) by discriminate.
  assert (Hlen5 : Z.of_nat (length (utcnow <$> seq 0 5)) * 1000 <= before_a).
  { rewrite length_fmap, length_seq. lia. }
  assert (Hmax5 : before_b + Z.of_nat (length (utcnow <$> seq 0 5)) * 1000 <= 2147483647).
  { rewrite length_fmap, length_seq. lia. }
  destruct (repeated_transfers_run (utcnow <$> seq 0 5) "alice" "bob" (PyFloat.of_int 10)
              (alice_to_bob (PyFloat.of_int 10)) 1000 before_a before_b db
              Hv Hc Hne Ha Hb Hina Hinb Hlen5 Hmax5)
    as (Ha' & Hb' & recs & Ht & Hlen & _).
  rewrite <- list_fmap_compose in Ha', Hb', Ht.
  rewrite length_fmap, length_seq in Ha', Hb', Hlen.
  split_and!; [exact Ha'|exact Hb'|].
  etrans; [apply (f_equal length Ht)|]. rewrite length_app, Hlen. reflexivity.
Qed.

(** [run_test] once the two creations are done and have left alice with
    at least 50 dollars. *)
Lemma run_test_run (utcnow : nat -> Z) (db : Database) (before_a before_b : Z)
    (read_before read_after : spec_float) :
  let db2 := snd (app (PostCreateWallet "bob") (snd (app (PostCreateWallet "alice") db))) in
  cents_of "alice" db2 = Some before_a ->
  cents_of "bob" db2 = Some before_b ->
  in_range before_a = true -> in_range before_b = true ->
  5000 <= before_a ->
  before_b + 5000 <= 2147483647 ->
  PyFloat.float before_a = Return read_before ->
  PyFloat.float (before_a - 5000) = Return read_after ->
  fst (run_test utcnow db) =
    Some (float_eqb (PyFloat.div read_after PyFloat.hundred)
            (float_sub (PyFloat.div read_before PyFloat.hundred) (PyFloat.of_int 50))) /\
  cents_of "alice" (snd (run_test utcnow db)) = Some (before_a - 5000) /\
  cents_of "bob" (snd (run_test utcnow db)) = Some (before_b + 5000) /\
  length (transactions (snd (run_test utcnow db))) = (length (transactions db2) + 5)%nat.
Proof.
  intros db2 Ha Hb Hina Hinb Hle Hmax Hfa Hfb. unfold run_test. fold db2.
  destruct (five_transfers utcnow db2 before_a before_b Ha Hb Hina Hinb Hle Hmax)
    as (Ha3 & Hb3 & Hlen).
  rewrite !balance_of_cents, Ha, Hfa, Ha3, Hfb.
  cbv beta iota zeta delta [fst snd]. by split_and!.
Qed.

Lemma float_10000 : PyFloat.float 10000 = Return (PyFloat.of_int 10000).
Proof. vm_compute. reflexivity. Qed.

Lemma float_5000 : PyFloat.float (10000 - 5000) = Return (PyFloat.of_int 5000).
Proof. vm_compute. reflexivity. Qed.

Lemma fifty_from_hundred :
  float_eqb (PyFloat.div (PyFloat.of_int 5000) PyFloat.hundred)
    (float_sub (PyFloat.div (PyFloat.of_int 10000) PyFloat.hundred) (PyFloat.of_int 50)) = true.
Proof. vm_compute. reflexivity. Qed.

(** X15.  On a database that has neither alice nor bob, the test creates
    both, all five transfers commit, and its verdict is SUCCESS: alice
    ends with 5000 cents, bob with 15000, and the ledger has five more
    records. *)
Theorem run_test_passes (utcnow : nat -> Z) (db : Database) :
  "alice"%string ∉ user_names db ->
  "bob"%string ∉ user_names db ->
  fst (run_test utcnow db) = Some true /\
  cents_of "alice" (snd (run_test utcnow db)) = Some 5000 /\
  cents_of "bob" (snd (run_test utcnow db)) = Some 15000 /\
  length (transactions (snd (run_test utcnow db))) = (length (transactions db) + 5)%nat.
Proof.
  intros Ha Hb.
  pose proof (run_test_run utcnow db 10000 10000 (PyFloat.of_int 10000) (PyFloat.of_int 5000))
    as Hrun.
  cbv zeta in Hrun. rewrite (create_fresh "alice" db Ha eq_refl) in Hrun.
  set (db1 := {| wallets := wallets db ++ _ |}) in Hrun.
  assert (Hb1 : "bob"%string ∉ user_names db1).
  { unfold user_names, db1. cbn [wallets]. rewrite fmap_app.
    intros H. apply elem_of_app in H as [H|H]; [done|].
    apply list_elem_of_singleton in H. discriminate. }
  rewrite (create_fresh "bob" db1 Hb1 eq_refl) in Hrun.
  set (db2 := {| wallets := wallets db1 ++ _ |}) in Hrun.
  unfold user_names in Ha, Hb1. apply first_row_None_iff in Ha, Hb1.
  assert (Ha2 : cents_of "alice" db2 = Some 10000).
  { unfold cents_of, db2, db1. cbn [wallets].
    rewrite (first_row_app_found _ _ _ (length (wallets db))).
    - rewrite lookup_app_l by (rewrite length_app; cbn [length]; lia).
      by rewrite list_lookup_middle.
    - apply first_row_app_fresh; [done|reflexivity]. }
  assert (Hb2 : cents_of "bob" db2 = Some 10000).
  { unfold cents_of, db2. cbn [wallets].
    rewrite first_row_app_fresh; [|done|reflexivity]. by rewrite list_lookup_middle. }
  destruct (Hrun Ha2 Hb2) as (Hv & Ha3 & Hb3 & Hlen);
    [reflexivity|reflexivity|lia|lia|apply float_10000|apply float_5000|].
  rewrite fifty_from_hundred in Hv. by split_and!.
Qed.

Lemma run_test_passes_witness :
  fst (run_test Z.of_nat (mkDatabase [] [] 0 0)) = Some true /\
  cents_of "alice" (snd (run_test Z.of_nat (mkDatabase [] [] 0 0))) = Some 5000 /\
  cents_of "bob" (snd (run_test Z.of_nat (mkDatabase [] [] 0 0))) = Some 15000 /\
  length (transactions (snd (run_test Z.of_nat (mkDatabase [] [] 0 0)))) = (0 + 5)%nat.
Proof.
  apply (run_test_passes Z.of_nat (mkDatabase [] [] 0 0)).
  - apply not_elem_of_nil.
  - apply not_elem_of_nil.
Defined.

(** X16.  On a database that already has both wallets, with balances the
    columns hold, at least 50 dollars on alice's and room for 50 dollars
    more within the 32-bit range on bob's, all five transfers commit and
    alice loses exactly 5000 cents; the verdict, though, is the equality
    of two floats, the balance read after and the balance read before
    less 50.0, and these can differ although no update was lost. *)
Theorem run_test_verdict (utcnow : nat -> Z) (db : Database) (before_a before_b : Z)
    (read_before read_after : spec_float) :
  cents_of "alice" db = Some before_a ->
  cents_of "bob" db = Some before_b ->
  in_range before_a = true -> in_range before_b = true ->
  5000 <= before_a ->
  before_b + 5000 <= 2147483647 ->
  PyFloat.float before_a = Return read_before ->
  PyFloat.float (before_a - 5000) = Return read_after ->
  cents_of "alice" (snd (run_test utcnow db)) = Some (before_a - 5000) /\
  cents_of "bob" (snd (run_test utcnow db)) = Some (before_b + 5000) /\
  fst (run_test utcnow db) =
    Some (float_eqb (PyFloat.div read_after PyFloat.hundred)
            (float_sub (PyFloat.div read_before PyFloat.hundred) (PyFloat.of_int 50))).
Proof.
  intros Ha Hb Hina Hinb Hle Hmax Hfa Hfb.
  assert (Hin : forall u b, cents_of u db = Some b -> u ∈ user_names db).
  { intros u b H. apply cents_of_Some in H as (row & w & Hrow & Hw & _).
    unfold user_names. rewrite <- (first_row_same_name _ _ _ _ Hrow Hw).
    apply list_elem_of_fmap_2. by eapply list_elem_of_lookup_2. }
  pose proof (run_test_run utcnow db before_a before_b read_before read_after) as Hrun.
  cbv zeta in Hrun.
  rewrite (create_existing "alice" db (Hin _ _ Ha)) in Hrun.
  rewrite (create_existing "bob" db (Hin _ _ Hb)) in Hrun.
  destruct (Hrun Ha Hb Hina Hinb Hle Hmax Hfa Hfb) as (Hv & Ha3 & Hb3 & _). by split_and!.
Qed.

Lemma run_test_verdict_witness :
  cents_of "alice" (snd (run_test Z.of_nat alice_5029)) = Some (5029 - 5000) /\
  cents_of "bob" (snd (run_test Z.of_nat alice_5029)) = Some (0 + 5000) /\
  fst (run_test Z.of_nat alice_5029) = Some false.
Proof.
  apply (run_test_verdict Z.of_nat alice_5029 5029 0
           (PyFloat.of_int 5029) (PyFloat.of_int 29)).
  - reflexivity.
  - reflexivity.
  - reflexivity.
  - reflexivity.
  - vm_compute. discriminate.
  - vm_compute. discriminate.
  - vm_compute. reflexivity.
  - vm_compute. reflexivity.
Defined.

Lemma lock_order_cases_aux (req : TransferRequest.t) (db : Database) :
  lock_order req db =
  match sender_row req db, receiver_row req db with
  | Some s, Some r => if bool_decide (s = r) then [s] else [s; r]
  | Some s, None => [s]
  | None, Some r =>
      if has_nul (TransferRequest.sender_username req) then [] else [r]
  | None, None => []
  end.
Proof.
  unfold sender_row, receiver_row, lock_order. run_session.
  destruct (first_row (has_user_name (TransferRequest.sender_username req)) (wallets db))
    as [s|]; session_simpl.
  2:{ destruct (has_nul (TransferRequest.sender_username req)); session_simpl;
        destruct (first_row (has_user_name (TransferRequest.receiver_username req))
                    (wallets db)) as [r|]; session_simpl; try done.
      by destruct (has_nul (TransferRequest.receiver_username req)). }
  destruct (first_row (has_user_name (TransferRequest.receiver_username req)) (wallets db))
    as [r|]; session_simpl.
  2:{ by destruct (has_nul (TransferRequest.receiver_username req)). }
  unfold lock_row. simpl. destruct (decide (s = r)) as [->|Hsr].
  - rewrite bool_decide_eq_true_2 by apply list_elem_of_here.
    by rewrite bool_decide_eq_true_2.
  - rewrite (bool_decide_eq_false_2 (s = r)) by done.
    rewrite bool_decide_eq_false_2; [done|].
    rewrite list_elem_of_singleton. congruence.
Qed.

(** X17.  The rows a transfer locks are those of the sender and of the
    receiver that exist, the sender's first, each once; the sender's row
    is locked also when the receiver is missing, whether the answer will
    be 404 or the receiver's lookup is refused; and when the sender is
    missing and its name holds a NUL character, the lookup of line 105
    raises, line 106 never runs and no row is locked. *)
Theorem lock_order_cases (req : TransferRequest.t) (db : Database) :
  lock_order req db =
  match sender_row req db, receiver_row req db with
  | Some s, Some r => if bool_decide (s = r) then [s] else [s; r]
  | Some s, None => [s]
  | None, Some r =>
      if has_nul (TransferRequest.sender_username req) then [] else [r]
  | None, None => []
  end.
Proof. apply lock_order_cases_aux. Qed.

(** X18.  Every endpoint ends its transaction: whatever it answers, the
    session it leaves holds no row lock and no change that is not
    committed. *)
Theorem requests_end_clean (utcnow : Z) (req : TransferRequest.t) (data : WalletCreate.t)
    (username : string) (db : Database) :
  let clean (s : Session) := locked s = [] /\ view s = bind s in
  clean (snd (transfer_funds utcnow req (SessionLocal db))) /\
  clean (snd (create_wallet data (SessionLocal db))) /\
  clean (snd (get_balance username (SessionLocal db))).
Proof.
  simpl. split_and!.
  - by rewrite transfer_funds_session.
  - by rewrite transfer_funds_session.
  - unfold create_wallet. run_session.
    destruct (first_row _ (wallets db)); simpl; [done|].
    destruct (has_nul (WalletCreate.username data)); simpl; [done|].
    by rewrite fits_app_new.
  - unfold create_wallet. run_session.
    destruct (first_row _ (wallets db)); simpl; [done|].
    destruct (has_nul (WalletCreate.username data)); simpl; [done|].
    by rewrite fits_app_new.
  - unfold get_balance. run_session.
    destruct (first_row _ (wallets db)) as [row|]; simpl;
      [|by destruct (has_nul username)].
    destruct (wallets db !! row) as [w|]; simpl; [|done].
    by destruct (PyFloat.float (Wallet.balance_cents w)).
  - unfold get_balance. run_session.
    destruct (first_row _ (wallets db)) as [row|]; simpl;
      [|by destruct (has_nul username)].
    destruct (wallets db !! row) as [w|]; simpl; [|done].
    by destruct (PyFloat.float (Wallet.balance_cents w)).
Qed.

Lemma lock_order_NoDup (req : TransferRequest.t) (db : Database) :
  NoDup (lock_order req db).
Proof.
  rewrite lock_order_cases_aux.
  destruct (sender_row req db) as [s|], (receiver_row req db) as [r|];
    try destruct (has_nul _);
    try apply NoDup_singleton; try apply NoDup_nil_2.
  case_bool_decide; [apply NoDup_singleton|].
  apply NoDup_cons. split; [|apply NoDup_singleton].
  rewrite list_elem_of_singleton. congruence.
Qed.

Lemma step_follows (order : list nat) (ws ws' : list Worker) :
  step ws ws' -> Forall (follows order) ws -> Forall (follows order) ws'.
Proof.
  intros Hstep Hws. destruct Hstep as [i row rest holding Hi _|i holding Hi].
  - apply Forall_insert; [done|].
    apply (Forall_lookup_1 _ _ _ _ Hws) in Hi. simpl in *.
    by rewrite <- app_assoc.
  - by apply Forall_insert.
Qed.

Lemma rtc_step_follows (order : list nat) (ws ws' : list Worker) :
  rtc step ws ws' -> Forall (follows order) ws -> Forall (follows order) ws'.
Proof.
  induction 1 as [|ws1 ws2 ws3 Hstep _ IH]; [done|].
  intros H. apply IH. by eapply step_follows.
Qed.

(** Transactions that ask for the same rows in the same order cannot all
    be blocked: the one that holds most waits for a row that only a
    transaction holding more could hold. *)
Lemma follows_not_stuck (order : list nat) (ws : list Worker) :
  NoDup order -> Forall (follows order) ws -> ~ stuck ws.
Proof.
  intros Hnd Hf [(i0 & w0 & h0 & Hi0) Hstuck].
  assert (Hwaits : forall i h, ws !! i = Some (Busy [] h) -> False).
  { intros i h Hi. exact (Hstuck _ (step_finish ws i h Hi)). }
  assert (Hclimb : forall n : nat,
             ~ ~ exists i row rest h, ws !! i = Some (Busy (row :: rest) h) /\ (n <= length h)%nat).
  { induction n as [|n IH]; intros HnP.
    - destruct w0 as [|row rest]; [by eapply Hwaits|].
      apply HnP. exists i0, row, rest, h0. split; [done|lia].
    - apply IH. intros (i & row & rest & h & Hi & Hn).
      refine (Hstuck _ (step_lock ws i row rest h Hi _)).
      intros (j & wj & Hji & Hj & Hin).
      destruct wj as [[|rowj restj] hj|]; simpl in Hin.
      + by eapply Hwaits.
      + apply HnP. exists j, rowj, restj, hj. split; [done|].
        pose proof (Forall_lookup_1 _ _ _ _ Hf Hi) as Fi.
        pose proof (Forall_lookup_1 _ _ _ _ Hf Hj) as Fj. simpl in Fi, Fj.
        apply list_elem_of_lookup in Hin as [k Hk].
        pose proof (lookup_lt_Some _ _ _ Hk) as Hklt.
        assert (H1 : order !! k = Some row).
        { rewrite <- Fj. by rewrite lookup_app_l. }
        assert (H2 : order !! length h = Some row).
        { rewrite <- Fi. by rewrite list_lookup_middle. }
        pose proof (NoDup_lookup _ _ _ _ Hnd H1 H2). lia.
      + by apply elem_of_nil in Hin. }
  apply (Hclimb (length order)). intros (i & row & rest & h & Hi & Hn).
  pose proof (Forall_lookup_1 _ _ _ _ Hf Hi) as Fi. simpl in Fi.
  apply (f_equal length) in Fi. rewrite length_app in Fi. simpl in Fi. lia.
Qed.

Lemma workers_follow (db : Database) (sender receiver : string) (amounts : list spec_float) :
  Forall (follows (lock_order (TransferRequest.mk sender receiver PyFloat.zero) db))
         (workers db (TransferRequest.mk sender receiver <$> amounts)).
Proof.
  unfold workers. rewrite <- list_fmap_compose.
  apply Forall_fmap, Forall_forall. intros amount _. simpl.
  by rewrite !lock_order_cases_aux.
Qed.

(** X19.  Any number of concurrent transfers in one direction, all from
    the same sender to the same receiver as in the test, never block each
    other for good: in every state they can reach, a transaction that is
    not finished can still take a step. *)
Theorem same_direction_never_stuck (db : Database) (sender receiver : string)
    (amounts : list spec_float) (ws' : list Worker) :
  rtc step (workers db (TransferRequest.mk sender receiver <$> amounts)) ws' ->
  ~ stuck ws'.
Proof.
  intros Hsteps.
  apply (follows_not_stuck (lock_order (TransferRequest.mk sender receiver PyFloat.zero) db)).
  - apply lock_order_NoDup.
  - eapply rtc_step_follows; [done|]. apply workers_follow.
Qed.

Lemma same_direction_never_stuck_witness :
  ~ stuck (workers alice_and_bob
             (TransferRequest.mk "alice" "bob" <$> replicate 5 dollars_10)).
Proof.
  apply (same_direction_never_stuck alice_and_bob "alice" "bob" (replicate 5 dollars_10)).
  apply rtc_refl.
Defined.

(** X20.  The [tx_id] a committed transfer answers with is the key of the
    record it added, the last of the ledger, and with sound primary keys
    that key was not in the ledger before. *)
Theorem tx_id_is_new (utcnow : Z) (req : TransferRequest.t) (db db' : Database)
    (resp : TransferResponse) :
  primary_keys db ->
  get_db (transfer_funds utcnow req) db = (Return resp, db') ->
  Transaction.id <$> last (transactions db') = Some (tx_id resp) /\
  tx_id resp ∉ transaction_ids db.
Proof.
  intros (_ & _ & _ & Hle) H.
  apply transfer_funds_Return in H
    as (s & r & ws & wr & a & _ & _ & _ & _ & _ & _ & -> & ->).
  simpl. rewrite last_snoc. split; [done|].
  intros Hin. rewrite Forall_forall in Hle. apply Hle in Hin. lia.
Qed.

Lemma tx_id_is_new_witness :
  Transaction.id <$> last (transactions
      (snd (get_db (transfer_funds 7 (alice_to_bob dollars_10)) alice_and_bob))) = Some 1 /\
  1 ∉ transaction_ids alice_and_bob.
Proof.
  apply (tx_id_is_new 7 (alice_to_bob dollars_10) alice_and_bob
           (snd (get_db (transfer_funds 7 (alice_to_bob dollars_10)) alice_and_bob))
           {| status := "success"; tx_id := 1 |}).
  - unfold primary_keys, wallet_ids, transaction_ids, alice_and_bob. simpl.
    split_and!.
    + apply NoDup_cons. split; [|apply NoDup_singleton].
      intros H. apply list_elem_of_singleton in H. discriminate.
    + repeat constructor; lia.
    + apply NoDup_nil_2.
    + constructor.
  - vm_compute. reflexivity.
Defined.

Lemma validate_names (sender receiver : string) (amount : spec_float)
    (req : TransferRequest.t) :
  TransferRequest.validate sender receiver amount = Some req ->
  TransferRequest.sender_username req = sender /\
  TransferRequest.receiver_username req = receiver.
Proof.
  unfold TransferRequest.validate. destruct (PyFloat.ltb _ _); [|discriminate].
  by intros [= <-].
Qed.

Lemma post_transfer_wallets (utcnow : Z) (sender receiver : string) (amount : spec_float)
    (db : Database) :
  wallets (snd (post_transfer utcnow sender receiver amount db)) =
  effect sender receiver amount (wallets db).
Proof.
  unfold post_transfer, effect, plan.
  destruct (TransferRequest.validate sender receiver amount) as [req|] eqn:Hv; [|done].
  destruct (validate_names _ _ _ _ Hv) as [Hsn Hrn].
  rewrite transfer_funds_run. unfold transfer_result, sender_row, receiver_row.
  rewrite Hsn, Hrn.
  destruct (first_row (has_user_name sender) (wallets db)) as [s|].
  2:{ destruct (first_row (has_user_name receiver) (wallets db));
        by destruct (has_nul sender), (has_nul receiver). }
  destruct (first_row (has_user_name receiver) (wallets db)) as [r|] eqn:Hr;
    [|by destruct (has_nul receiver)].
  destruct (first_row_Some _ _ _ Hr) as (wr & Hwr & _). rewrite Hwr.
  destruct (wallets db !! s) as [ws|]; [|done].
  destruct (TransferRequest.amount_cents req) as [a|e]; [|done].
  destruct (_ <? _); [done|]. by destruct (fits _ _).
Qed.

Lemma plan_Some (sender receiver : string) (amount : spec_float) (l : list Wallet.t)
    (s r : nat) (a : Z) :
  plan sender receiver amount l = Some (s, r, a) ->
  exists ws wr, l !! s = Some ws /\ l !! r = Some wr /\
                Wallet.user_name ws = sender /\ Wallet.user_name wr = receiver.
Proof.
  unfold plan.
  destruct (TransferRequest.validate sender receiver amount) as [req|]; [|done].
  destruct (first_row (has_user_name sender) l) as [s'|] eqn:Hs; [|done].
  destruct (first_row (has_user_name receiver) l) as [r'|] eqn:Hr; [|done].
  destruct (l !! s') as [ws|] eqn:Hws; [|done].
  destruct (TransferRequest.amount_cents req) as [a'|]; [|done].
  destruct (_ <? _); [done|]. destruct (fits _ _); [|done]. intros [= <- <- <-].
  destruct (first_row_Some _ _ _ Hr) as (wr & Hwr & _).
  exists ws, wr. split_and!; [done|done| |]; by eapply first_row_same_name.
Qed.

Lemma first_row_effect (name sender receiver : string) (amount : spec_float)
    (l : list Wallet.t) :
  first_row (has_user_name name) (effect sender receiver amount l) =
  first_row (has_user_name name) l.
Proof.
  unfold effect. destruct (plan sender receiver amount l) as [[[s r] a]|]; [|done].
  apply first_row_moved.
Qed.

Lemma lookup_effect_other (sender receiver : string) (amount : spec_float)
    (l : list Wallet.t) (j : nat) (w : Wallet.t) :
  l !! j = Some w ->
  Wallet.user_name w <> sender -> Wallet.user_name w <> receiver ->
  effect sender receiver amount l !! j = Some w.
Proof.
  intros Hw Hns Hnr. unfold effect.
  destruct (plan sender receiver amount l) as [[[s r] a]|] eqn:Hp; [|done].
  destruct (plan_Some _ _ _ _ _ _ _ Hp) as (ws & wr & Hws & Hwr & Hs & Hr).
  destruct (lookup_moved s r a l j w Hw) as (w' & Hw' & _ & Hsame).
  rewrite Hw', Hsame; [done| |].
  - intros ->. rewrite Hws in Hw. injection Hw as ->. by apply Hns.
  - intros ->. rewrite Hwr in Hw. injection Hw as ->. by apply Hnr.
Qed.

(** A transfer between two other names does not change whether and how a
    transfer commits. *)
Lemma plan_effect (sender receiver sender' receiver' : string) (amount amount' : spec_float)
    (l : list Wallet.t) :
  sender <> sender' -> sender <> receiver' ->
  receiver <> sender' -> receiver <> receiver' ->
  plan sender receiver amount (effect sender' receiver' amount' l) =
  plan sender receiver amount l.
Proof.
  intros H1 H2 H3 H4. unfold plan.
  destruct (TransferRequest.validate sender receiver amount) as [req|]; [|done].
  rewrite !first_row_effect.
  destruct (first_row (has_user_name sender) l) as [s|] eqn:Hs; [|done].
  destruct (first_row (has_user_name receiver) l) as [r|] eqn:Hr; [|done].
  destruct (first_row_Some _ _ _ Hs) as (ws & Hws & _).
  destruct (first_row_Some _ _ _ Hr) as (wr & Hwr & _).
  assert (Hws' : effect sender' receiver' amount' l !! s = Some ws).
  { apply lookup_effect_other; [done| |];
      by rewrite (first_row_same_name _ _ _ _ Hs Hws). }
  assert (Hwr' : effect sender' receiver' amount' l !! r = Some wr).
  { apply lookup_effect_other; [done| |];
      by rewrite (first_row_same_name _ _ _ _ Hr Hwr). }
  rewrite Hws', Hws.
  destruct (TransferRequest.amount_cents req) as [a|e]; [|done].
  by rewrite (fits_moved s r a _ ws wr Hws' Hwr'), (fits_moved s r a _ ws wr Hws Hwr).
Qed.

Lemma moved_commute (s r s' r' : nat) (a a' : Z) (l : list Wallet.t) :
  s <> s' -> s <> r' -> r <> s' -> r <> r' ->
  moved s r a (moved s' r' a' l) = moved s' r' a' (moved s r a l).
Proof.
  intros H1 H2 H3 H4. unfold moved.
  rewrite (list_alter_alter_ne (debit a) (credit a') _ s r') by done.
  rewrite (list_alter_alter_ne (debit a) (debit a') _ s s') by done.
  rewrite (list_alter_alter_ne (credit a) (credit a') _ r r') by done.
  rewrite (list_alter_alter_ne (credit a) (debit a') _ r s') by done.
  done.
Qed.

Lemma effect_commute (s1 r1 s2 r2 : string) (a1 a2 : spec_float) (l : list Wallet.t) :
  s1 <> s2 -> s1 <> r2 -> r1 <> s2 -> r1 <> r2 ->
  effect s2 r2 a2 (effect s1 r1 a1 l) = effect s1 r1 a1 (effect s2 r2 a2 l).
Proof.
  intros H1 H2 H3 H4.
  unfold effect at 1 3.
  rewrite (plan_effect s2 r2 s1 r1) by done.
  rewrite (plan_effect s1 r1 s2 r2) by done.
  unfold effect.
  destruct (plan s1 r1 a1 l) as [[[i1 j1] c1]|] eqn:Hp1;
    destruct (plan s2 r2 a2 l) as [[[i2 j2] c2]|] eqn:Hp2; try done.
  destruct (plan_Some _ _ _ _ _ _ _ Hp1) as (w1 & w1' & Hw1 & Hw1' & Hn1 & Hn1').
  destruct (plan_Some _ _ _ _ _ _ _ Hp2) as (w2 & w2' & Hw2 & Hw2' & Hn2 & Hn2').
  apply moved_commute; intros ->; congruence.
Qed.

(** X21.  Two transfers between two disjoint pairs of names commute: in
    whichever order the two requests are handled, whether each of them is
    committed or turned down, the wallets end up the same. *)
Theorem disjoint_transfers_commute (utcnow1 utcnow2 : Z) (sender1 receiver1 sender2
    receiver2 : string) (amount1 amount2 : spec_float) (db : Database) :
  sender1 <> sender2 -> sender1 <> receiver2 ->
  receiver1 <> sender2 -> receiver1 <> receiver2 ->
  wallets (serve [PostTransfer utcnow1 sender1 receiver1 amount1;
                  PostTransfer utcnow2 sender2 receiver2 amount2] db) =
  wallets (serve [PostTransfer utcnow2 sender2 receiver2 amount2;
                  PostTransfer utcnow1 sender1 receiver1 amount1] db).
Proof.
  intros H1 H2 H3 H4. rewrite !serve_cons. unfold serve, app. simpl.
  destruct (post_transfer utcnow1 sender1 receiver1 amount1 db) as [res1 db1] eqn:E1.
  destruct (post_transfer utcnow2 sender2 receiver2 amount2 db) as [res2 db2] eqn:E2.
  simpl.
  pose proof (post_transfer_wallets utcnow2 sender2 receiver2 amount2 db1) as Q2.
  pose proof (post_transfer_wallets utcnow1 sender1 receiver1 amount1 db2) as Q1.
  destruct (post_transfer utcnow2 sender2 receiver2 amount2 db1) as [res2' db12].
  destruct (post_transfer utcnow1 sender1 receiver1 amount1 db2) as [res1' db21].
  simpl in *. rewrite Q1, Q2.
  pose proof (post_transfer_wallets utcnow1 sender1 receiver1 amount1 db) as P1.
  pose proof (post_transfer_wallets utcnow2 sender2 receiver2 amount2 db) as P2.
  rewrite E1 in P1. rewrite E2 in P2. simpl in *. rewrite P1, P2.
  by apply effect_commute.
Qed.

Lemma disjoint_transfers_commute_witness :
  wallets (serve [PostTransfer 7 "alice" "bob" dollars_10;
                  PostTransfer 8 "carol" "dave" dollars_10] alice_bob_carol) =
  wallets (serve [PostTransfer 8 "carol" "dave" dollars_10;
                  PostTransfer 7 "alice" "bob" dollars_10] alice_bob_carol).
Proof.
  apply (disjoint_transfers_commute 7 8 "alice" "bob" "carol" "dave" dollars_10 dollars_10
           alice_bob_carol); discriminate.
Defined.

(** X22.  Over any two different existing wallets, a transfer and the
    transfer with sender and receiver swapped, handled concurrently, can
    reach a state in which each holds the row the other waits for and
    neither can take a step: the deadlock does not depend on the names,
    the balances or the amounts. *)
Theorem swapped_transfers_can_deadlock (req : TransferRequest.t) (db : Database)
    (s r : nat) :
  sender_row req db = Some s -> receiver_row req db = Some r -> s <> r ->
  exists ws,
    rtc step (workers db [req; swap req]) ws /\
    circular_wait ws /\
    forall ws', ~ step ws ws'.
Proof.
  intros Hs Hr Hne.
  assert (Hw : workers db [req; swap req] = [Busy [s; r] []; Busy [r; s] []]).
  { unfold workers. simpl.
    rewrite (lock_order_sender_first req db s r) by done.
    by rewrite (lock_order_sender_first (swap req) db r s). }
  rewrite Hw.
  exists [Busy [r] [s]; Busy [s] [r]].
  assert (H01 : held_by_other [Busy [r] [s]; Busy [s] [r]] 0 r).
  { exists 1%nat, (Busy [s] [r]). split_and!; [done|done|]. simpl. apply list_elem_of_here. }
  assert (H10 : held_by_other [Busy [r] [s]; Busy [s] [r]] 1 s).
  { exists 0%nat, (Busy [r] [s]). split_and!; [done|done|]. simpl. apply list_elem_of_here. }
  split_and!.
  - apply rtc_l with [Busy [r] [s]; Busy [r; s] []].
    { apply (step_lock [Busy [s; r] []; Busy [r; s] []] 0 s [r] []); [done|].
      intros (j & w & Hj & Hwj & Hin). destruct j as [|[|j]]; [done| |done].
      injection Hwj as <-. by apply elem_of_nil in Hin. }
    apply rtc_once.
    apply (step_lock [Busy [r] [s]; Busy [r; s] []] 1 r [s] []); [done|].
    intros (j & w & Hj & Hwj & Hin). destruct j as [|[|j]]; [|done|done].
    injection Hwj as <-. simpl in Hin. apply list_elem_of_singleton in Hin. congruence.
  - split; [done|]. intros i w Hi. destruct i as [|[|i]]; [| |done].
    + injection Hi as <-. by exists r, [], [s].
    + injection Hi as <-. by exists s, [], [r].
  - intros ws' Hstep. inversion Hstep as [i row rest holding Hi Hfree|i holding Hi]; subst.
    + destruct i as [|[|i]]; [| |done]; injection Hi as <- <- <-; by apply Hfree.
    + destruct i as [|[|i]]; done.
Qed.

Lemma swapped_transfers_can_deadlock_witness :
  exists ws,
    rtc step (workers alice_bob_carol
                [TransferRequest.mk "carol" "alice" tenth_of_a_cent;
                 swap (TransferRequest.mk "carol" "alice" tenth_of_a_cent)]) ws /\
    circular_wait ws /\
    forall ws', ~ step ws ws'.
Proof.
  apply (swapped_transfers_can_deadlock
           (TransferRequest.mk "carol" "alice" tenth_of_a_cent) alice_bob_carol 2 0).
  - reflexivity.
  - reflexivity.
  - discriminate.
Defined.

Lemma moved_back (s r : nat) (a : Z) (l : list Wallet.t) :
  s <> r -> moved r s a (moved s r a l) = l.
Proof.
  intros Hne. unfold moved.
  rewrite (list_alter_alter_eq (debit a) (credit a)).
  rewrite (list_alter_alter_ne (credit a) _ _ s r) by done.
  rewrite (list_alter_alter_eq (credit a) (debit a)).
  rewrite !list_alter_id; [done| |].
  - intros w. apply credit_debit.
  - intros [k n b]. unfold credit, debit. simpl. f_equal. lia.
Qed.

(** X23.  A committed transfer can be undone: in a database without
    negative balances, the same amount sent back from the receiver to the
    sender is committed too, and every wallet has its balance of before
    the two transfers. *)
Theorem transfer_and_back (utcnow utcnow' : Z) (sender receiver : string)
    (amount : spec_float) (db db1 : Database) (resp : TransferResponse) :
  non_negative db ->
  sender <> receiver ->
  post_transfer utcnow sender receiver amount db = (Return resp, db1) ->
  (exists resp', fst (post_transfer utcnow' receiver sender amount db1) = Return resp') /\
  wallets (snd (post_transfer utcnow' receiver sender amount db1)) = wallets db.
Proof.
  intros Hnn Hne H. unfold post_transfer in *.
  destruct (TransferRequest.validate sender receiver amount) as [req|] eqn:Hv; [|discriminate].
  destruct (validate_names _ _ _ _ Hv) as [Hsn Hrn].
  assert (Hv' : TransferRequest.validate receiver sender amount =
                Some (TransferRequest.mk receiver sender amount)).
  { unfold TransferRequest.validate in *. by destruct (PyFloat.ltb _ _). }
  rewrite Hv'.
  assert (Hamt : TransferRequest.amount_cents (TransferRequest.mk receiver sender amount) =
                 TransferRequest.amount_cents req).
  { unfold TransferRequest.validate in Hv. destruct (PyFloat.ltb _ _); [|discriminate].
    by injection Hv as <-. }
  pose proof H as Hfit.
  apply transfer_funds_Return in H
    as (s & r & ws & wr & a & Hs & Hr & Hws & Hwr & Ha & Hle & _ & ->).
  apply (transfer_funds_fits _ _ _ _ _ s r a) in Hfit; [|done..].
  unfold sender_row, receiver_row in Hs, Hr. rewrite Hsn in Hs. rewrite Hrn in Hr.
  assert (Hsr : s <> r).
  { intros ->. rewrite Hws in Hwr. injection Hwr as ->.
    apply Hne. rewrite <- (first_row_same_name _ _ _ _ Hs Hws).
    apply (first_row_same_name _ _ _ _ Hr Hws). }
  rewrite transfer_funds_run. unfold transfer_result, sender_row, receiver_row. simpl.
  rewrite !first_row_moved, Hs, Hr.
  rewrite (lookup_moved_sender s r a _ ws Hsr Hws).
  rewrite (lookup_moved_receiver s r a _ wr Hsr Hwr).
  rewrite Hamt, Ha. simpl.
  pose proof (Forall_lookup_1 _ _ _ _ Hnn Hwr) as Hb. simpl in Hb.
  rewrite (proj2 (Z.ltb_ge (Wallet.balance_cents wr + a) a)) by lia.
  rewrite (moved_back s r a) by done.
  rewrite fits_sym, Hfit by apply length_moved. simpl.
  split; [eauto|]. by apply moved_back.
Qed.

Lemma transfer_and_back_witness :
  (exists resp',
     fst (post_transfer 8 "bob" "alice" dollars_10
            (snd (post_transfer 7 "alice" "bob" dollars_10 alice_and_bob))) = Return resp') /\
  wallets (snd (post_transfer 8 "bob" "alice" dollars_10
                  (snd (post_transfer 7 "alice" "bob" dollars_10 alice_and_bob)))) =
  wallets alice_and_bob.
Proof.
  apply (transfer_and_back 7 8 "alice" "bob" dollars_10 alice_and_bob
           (snd (post_transfer 7 "alice" "bob" dollars_10 alice_and_bob))
           {| status := "success"; tx_id := 1 |}).
  - unfold non_negative, alice_and_bob. simpl. repeat constructor; simpl; lia.
  - discriminate.
  - vm_compute. reflexivity.
Defined.
